(** * chesscom: the match classification and aggregation engine

    A shallow embedding of [src/chesscom.py] (the Chess.com performance
    dashboard) together with the properties of its data pipeline:
    archive selection, record normalisation, outcome classification and
    the daily, interval, weekly and distribution aggregates.

    Conventions of the embedding.
    - A pandas [DataFrame] is the list of its rows, in row order.
    - Points in time are integers: a POSIX timestamp counts seconds since
      the epoch, a naive local [datetime] counts seconds since
      1970-01-01T00:00 of the local clock, a calendar date is its day
      number (days since 1970-01-01).  The local clock belongs to the
      run's environment: it is given by the two conversions
      [fromtimestamp] and [timestamp], on which nothing is assumed.
    - JSON objects read with [d[k]] are records; keys read with
      [d.get(k)] are optional fields.
    - An uncaught Python exception is the result [None] of the function
      that raises it.
    - Means and percentages, floats in the source, are exact rationals;
      for ratings and game counts of realistic size the float results
      round to the same integers. *)

From Stdlib Require Import ZArith List String Ascii Bool Lia QArith.
From Stdlib Require Import Sorting.Sorted Sorting.Permutation OrderedTypeEx.
Import ListNotations.

Local Open Scope string_scope.
Local Open Scope Z_scope.

(** ** Python string primitives (ASCII) *)

Module PyStr.

Definition code (c : ascii) : Z := Z.of_N (N_of_ascii c).

Definition is_upper (c : ascii) : bool := (65 <=? code c) && (code c <=? 90).
Definition is_lower (c : ascii) : bool := (97 <=? code c) && (code c <=? 122).
Definition is_digit (c : ascii) : bool := (48 <=? code c) && (code c <=? 57).

Definition lower_char (c : ascii) : ascii :=
  if is_upper c then ascii_of_N (Z.to_N (code c + 32)) else c.
Definition upper_char (c : ascii) : ascii :=
  if is_lower c then ascii_of_N (Z.to_N (code c - 32)) else c.

(** [s.lower()] *)
Fixpoint lower (s : string) : string :=
  match s with
  | EmptyString => EmptyString
  | String c r => String (lower_char c) (lower r)
  end.

(** [s.capitalize()]: first character upper-cased, the rest lower-cased. *)
Definition capitalize (s : string) : string :=
  match s with
  | EmptyString => EmptyString
  | String c r => String (upper_char c) (lower r)
  end.

(** [s.split(sep)] for a one-character separator: the pieces between the
    separators, empty pieces included; never the empty list. *)
Fixpoint split (sep : ascii) (s : string) : list string :=
  match s with
  | EmptyString => [EmptyString]
  | String c r =>
      if Ascii.eqb c sep then EmptyString :: split sep r
      else match split sep r with
           | [] => [String c EmptyString]
           | p :: ps => String c p :: ps
           end
  end.

(** [parts[-1]] and [parts[-2]]; [None] is the [IndexError]. *)
Definition last1 {A} (l : list A) : option A := nth_error (rev l) 0.
Definition last2 {A} (l : list A) : option A := nth_error (rev l) 1.

(** [s.replace(old, new)]: every non-overlapping occurrence of [old],
    left to right ([old] not empty). *)
Fixpoint drop (n : nat) (s : string) : string :=
  match n, s with
  | O, _ => s
  | S k, String _ r => drop k r
  | S _, EmptyString => EmptyString
  end.

Fixpoint replace_fuel (fuel : nat) (old new s : string) : string :=
  match fuel with
  | O => s
  | S f =>
      match s with
      | EmptyString => EmptyString
      | String c r =>
          if prefix old s
          then new ++ replace_fuel f old new (drop (String.length old) s)
          else String c (replace_fuel f old new r)
      end
  end.

Definition replace (old new s : string) : string :=
  replace_fuel (S (String.length s)) old new s.

(** [int(s)] on ASCII text: blanks stripped at both ends, an optional
    sign, then decimal digits where single underscores may separate
    digits.  [None] is the [ValueError]. *)
Definition is_space (c : ascii) : bool :=
  (code c =? 32) || ((9 <=? code c) && (code c <=? 13)).

Fixpoint lstrip (s : string) : string :=
  match s with
  | String c r => if is_space c then lstrip r else s
  | EmptyString => EmptyString
  end.

Fixpoint rev_string (acc s : string) : string :=
  match s with
  | EmptyString => acc
  | String c r => rev_string (String c acc) r
  end.

Definition strip (s : string) : string :=
  rev_string EmptyString (lstrip (rev_string EmptyString (lstrip s))).

Definition digit_val (c : ascii) : Z := code c - 48.

(** [digits_from acc after_digit s]: the digits of [s] accumulated onto
    [acc]; [after_digit] tells whether an underscore may come next. *)
Fixpoint digits_from (acc : Z) (after_digit : bool) (s : string) : option Z :=
  match s with
  | EmptyString => if after_digit then Some acc else None
  | String c r =>
      if is_digit c then digits_from (10 * acc + digit_val c) true r
      else if Ascii.eqb c "_"%char && after_digit then
        match r with
        | String d _ => if is_digit d then digits_from acc false r else None
        | EmptyString => None
        end
      else None
  end.

Definition int (s : string) : option Z :=
  match strip s with
  | String "-"%char r => option_map Z.opp (digits_from 0 false r)
  | String "+"%char r => digits_from 0 false r
  | r => digits_from 0 false r
  end.

End PyStr.

(** ** Calendar arithmetic of Python's [datetime] *)

Module Calendar.

(** [datetime._is_leap] *)
Definition is_leap (year : Z) : bool :=
  (year mod 4 =? 0) && (negb (year mod 100 =? 0) || (year mod 400 =? 0)).

(** [datetime._DAYS_IN_MONTH] with the leap day, as [_days_in_month]. *)
Definition days_in_month (year month : Z) : Z :=
  if month =? 2 then (if is_leap year then 29 else 28)
  else if (month =? 4) || (month =? 6) || (month =? 9) || (month =? 11)
       then 30 else 31.

(** [datetime._days_before_year]: days before January 1st of [year]. *)
Definition days_before_year (year : Z) : Z :=
  let y := year - 1 in y * 365 + y / 4 - y / 100 + y / 400.

(** [datetime._DAYS_BEFORE_MONTH] *)
Definition DAYS_BEFORE_MONTH (month : Z) : Z :=
  nth (Z.to_nat month)
      [0; 0; 31; 59; 90; 120; 151; 181; 212; 243; 273; 304; 334] 0.

Definition days_before_month (year month : Z) : Z :=
  DAYS_BEFORE_MONTH month + (if (2 <? month) && is_leap year then 1 else 0).

(** [date.toordinal()]: 0001-01-01 is day 1. *)
Definition ymd2ord (year month day : Z) : Z :=
  days_before_year year + days_before_month year month + day.

(** The ordinal of 1970-01-01. *)
Definition EPOCH_ORDINAL : Z := 719163.

(** The day number (days since 1970-01-01) of a calendar date. *)
Definition day_number (year month day : Z) : Z :=
  ymd2ord year month day - EPOCH_ORDINAL.

(** [date.weekday()] of a day number: Monday is 0, Sunday is 6. *)
Definition weekday (d : Z) : Z := (d + EPOCH_ORDINAL + 6) mod 7.

(** [datetime._ord2ymd], from a day number: (year, month, day). *)
Definition ord2ymd (d : Z) : Z * Z * Z :=
  let n := d + EPOCH_ORDINAL - 1 in
  let n400 := n / 146097 in
  let n := n mod 146097 in
  let year := n400 * 400 + 1 in
  let n100 := n / 36524 in
  let n := n mod 36524 in
  let n4 := n / 1461 in
  let n := n mod 1461 in
  let n1 := n / 365 in
  let n := n mod 365 in
  let year := year + n100 * 100 + n4 * 4 + n1 in
  if (n1 =? 4) || (n100 =? 4) then (year - 1, 12, 31)
  else
    let leapyear := (n1 =? 3) && (negb (n4 =? 24) || (n100 =? 3)) in
    let month := Z.shiftr (n + 50) 5 in
    let preceding :=
      DAYS_BEFORE_MONTH month + (if (2 <? month) && leapyear then 1 else 0) in
    if n <? preceding then
      let month := month - 1 in
      let preceding :=
        preceding - (days_in_month 1 month
                     + (if (month =? 2) && leapyear then 1 else 0)) in
      (year, month, n - preceding + 1)
    else (year, month, n - preceding + 1).

(** Seconds in a day. *)
Definition DAY : Z := 86400.

(** [dt.date()] of a naive datetime, as a day number. *)
Definition date_of (t : Z) : Z := t / DAY.

End Calendar.

(** ** [datetime.strptime(s, "%Y-%m-%d")] *)

Module Strptime.
Import PyStr.

(** One regular-expression alternative applied at the head of the text:
    the value it reads and the text that is left. *)
Definition alt := string -> option (Z * string).

Definition in_range (lo hi : Z) (c : ascii) : bool :=
  (lo <=? digit_val c) && (digit_val c <=? hi) && is_digit c.

(** Two characters [c1 c2] with [c1] in [a1..b1] and [c2] in [a2..b2]. *)
Definition two (a1 b1 a2 b2 : Z) : alt := fun s =>
  match s with
  | String c1 (String c2 r) =>
      if in_range a1 b1 c1 && in_range a2 b2 c2
      then Some (10 * digit_val c1 + digit_val c2, r) else None
  | _ => None
  end.

(** One character in [a..b]. *)
Definition one (a b : Z) : alt := fun s =>
  match s with
  | String c r => if in_range a b c then Some (digit_val c, r) else None
  | _ => None
  end.

(** A blank followed by one character in [a..b]. *)
Definition blank_one (a b : Z) : alt := fun s =>
  match s with
  | String " "%char r => one a b r
  | _ => None
  end.

(** [%Y] is [\d\d\d\d]. *)
Definition year_re : alt := fun s =>
  match s with
  | String c1 (String c2 (String c3 (String c4 r))) =>
      if is_digit c1 && is_digit c2 && is_digit c3 && is_digit c4
      then Some (1000 * digit_val c1 + 100 * digit_val c2
                 + 10 * digit_val c3 + digit_val c4, r)
      else None
  | _ => None
  end.

(** [%m] is [1[0-2]|0[1-9]|[1-9]]. *)
Definition month_re : list alt := [two 1 1 0 2; two 0 0 1 9; one 1 9].

(** [%d] is [3[0-1]|[1-2]\d|0[1-9]|[1-9]| [1-9]]. *)
Definition day_re : list alt :=
  [two 3 3 0 1; two 1 2 0 9; two 0 0 1 9; one 1 9; blank_one 1 9].

Definition literal (c : ascii) (s : string) : option string :=
  match s with
  | String d r => if Ascii.eqb c d then Some r else None
  | EmptyString => None
  end.

(** The first alternative after which the continuation matches
    (the alternatives are tried in order, with backtracking). *)
Fixpoint first_match {A} (alts : list alt) (k : Z -> string -> option A)
  : string -> option A := fun s =>
  match alts with
  | [] => None
  | a :: rest =>
      match a s with
      | Some (v, r) =>
          match k v r with
          | Some x => Some x
          | None => first_match rest k s
          end
      | None => first_match rest k s
      end
  end.

(** The regular expression of the format, matched at the start of the
    text: the three fields and the end of the match. *)
Definition format_regex (s : string) : option (Z * Z * Z * string) :=
  match year_re s with
  | Some (y, r1) =>
      match literal "-"%char r1 with
      | Some r2 =>
          first_match month_re (fun m r3 =>
            match literal "-"%char r3 with
            | Some r4 =>
                first_match day_re (fun d r5 => Some (y, m, d, r5)) r4
            | None => None
            end) r2
      | None => None
      end
  | None => None
  end.

(** [strptime]: the text must match, nothing may remain unconverted, and
    the fields must form a date ([year >= 1], day within the month).
    [None] is the [ValueError]. *)
Definition strptime (s : string) : option (Z * Z * Z) :=
  match format_regex s with
  | Some (y, m, d, EmptyString) =>
      if (1 <=? y) && (d <=? Calendar.days_in_month y m)
      then Some (y, m, d) else None
  | _ => None
  end.

End Strptime.

(** ** Data model *)

(** The value of the ['Status'] column: ['Win'], ['Draw'] or ['Loss']. *)
Inductive Outcome := Win | Draw | Loss.

Definition Outcome_eqb (a b : Outcome) : bool :=
  match a, b with
  | Win, Win | Draw, Draw | Loss, Loss => true
  | _, _ => false
  end.

(** One side of a raw game: [game['white']] or [game['black']]. *)
Record Side := {
  username : string;
  rating : Z;
  result : string
}.

(** A raw game of a monthly archive.  [time_class] and [rules] are read
    with [game.get], so they may be missing. *)
Record Game := {
  end_time : Z;
  time_class : option string;
  rules : option string;
  white : Side;
  black : Side
}.

(** One row of the history frame built by [process_all_modes]. *)
Record MatchRecord := {
  Date : Z;
  Rating : Z;
  Mode : string;
  Status : Outcome;
  Is960 : bool
}.

Definition DataFrame := list MatchRecord.

(** What the run reads from outside: the local clock and the answers of
    [get_data].  [fromtimestamp t] is the naive local datetime that
    [datetime.fromtimestamp] reads at the instant [t], whatever the zone
    and its changes of offset; [timestamp dt] is the instant that
    [dt.timestamp()] gives a naive local datetime, [None] when it raises
    [ValueError] (a datetime in the first day of year 1).
    [archives_index] is [None] when the index request fails or answers
    nothing, else the list under ['archives']; [monthly url] is [None]
    when that month fails, else the list under ['games']. *)
Record World := {
  fromtimestamp : Z -> Z;
  timestamp : Z -> option Z;
  archives_index : option (list string);
  monthly : string -> option (list Game)
}.

(** ** [process_all_modes] *)

(** The result code of the user's side, lines 95-103. *)
Definition game_status (game_result : string) : Outcome :=
  if existsb (String.eqb game_result)
       ["win"; "agreed"; "repetition"; "stalemate"; "insufficient_material";
        "50move"; "timevsinsufficientmaterial"]
  then (if String.eqb game_result "win" then Win else Draw)
  else if existsb (String.eqb game_result)
            ["checkmated"; "resigned"; "timeout"; "abandoned"]
  then Loss
  else Draw.

Definition TIME_CLASSES : list string := ["rapid"; "blitz"; "bullet"; "daily"].

(** [time_class in ['rapid', 'blitz', 'bullet', 'daily']] *)
Definition recognized (tc : option string) : bool :=
  match tc with
  | Some s => existsb (String.eqb s) TIME_CLASSES
  | None => false
  end.

(** [game.get('rules', 'chess') == 'chess960'] *)
Definition is_960_of (game : Game) : bool :=
  String.eqb (match rules game with Some r => r | None => "chess" end) "chess960".

Definition user_side (user : string) (game : Game) : Side :=
  if String.eqb (PyStr.lower (username (white game))) (PyStr.lower user)
  then white game else black game.

Definition mode_name (tc : string) (is_960 : bool) : string :=
  if is_960 then PyStr.capitalize tc ++ "960" else PyStr.capitalize tc.

(** The body of the loop over the games of one archive, lines 79-116:
    the row appended to [history_data], or [None] when the game is
    skipped. *)
Definition normalize (local : Z -> Z) (user : string) (start_timestamp : Z)
    (game : Game) : option MatchRecord :=
  if end_time game <? start_timestamp then None
  else
    match time_class game with
    | Some tc =>
        if recognized (Some tc) then
          let side := user_side user game in
          Some {| Date := local (end_time game);
                  Rating := rating side;
                  Mode := mode_name tc (is_960_of game);
                  Status := game_status (result side);
                  Is960 := is_960_of game |}
        else None
    | None => None
    end.

Fixpoint history (local : Z -> Z) (user : string) (start_timestamp : Z)
    (games : list Game) : DataFrame :=
  match games with
  | [] => []
  | g :: rest =>
      match normalize local user start_timestamp g with
      | Some r => r :: history local user start_timestamp rest
      | None => history local user start_timestamp rest
      end
  end.

(** [int(parts[-2])] and [int(parts[-1])] of an archive URL; [None] is
    the [IndexError] or [ValueError]. *)
Definition archive_year_month (url : string) : option (Z * Z) :=
  let parts := PyStr.split "/"%char url in
  match PyStr.last2 parts, PyStr.last1 parts with
  | Some p2, Some p1 =>
      match PyStr.int p2, PyStr.int p1 with
      | Some year, Some month => Some (year, month)
      | _, _ => None
      end
  | _, _ => None
  end.

(** The condition of line 67. *)
Definition on_or_after (start_year start_month year month : Z) : bool :=
  (start_year <? year) || ((year =? start_year) && (start_month <=? month)).

(** The loop of lines 62-68 building [relevant_archives]. *)
Fixpoint select_archives (start_year start_month : Z) (all_archives : list string)
  : option (list string) :=
  match all_archives with
  | [] => Some []
  | url :: rest =>
      match archive_year_month url with
      | None => None
      | Some (year, month) =>
          match select_archives start_year start_month rest with
          | None => None
          | Some sel =>
              Some (if on_or_after start_year start_month year month
                    then url :: sel else sel)
          end
      end
  end.

Definition index_url (user : string) : string :=
  "https://api.chess.com/pub/player/" ++ user ++ "/games/archives".

(** The loop of lines 74-116 over the selected archives. *)
Fixpoint download (w : World) (user : string) (start_timestamp : Z)
    (urls : list string) : DataFrame :=
  match urls with
  | [] => []
  | url :: rest =>
      match monthly w url with
      | None => download w user start_timestamp rest
      | Some games =>
          (history (fromtimestamp w) user start_timestamp games
           ++ download w user start_timestamp rest)%list
      end
  end.

(** A finished call: the URLs requested through [get_data], in order, and
    the returned frame ([None] when the call raised). *)
Record Run := {
  fetched : list string;
  returned : option DataFrame
}.

(** The naive local datetime [start_dt]: midnight of the start date. *)
Definition start_dt_of (ymd : Z * Z * Z) : Z :=
  let '(y, m, d) := ymd in Calendar.day_number y m d * Calendar.DAY.

(** [start_dt.timestamp()]: the instant of local midnight of the start
    date; [None] is the [ValueError]. *)
Definition start_timestamp_of (w : World) (ymd : Z * Z * Z) : option Z :=
  timestamp w (start_dt_of ymd).

(** Both [strptime] and [timestamp] stand in the [try] of lines 47-52:
    a [ValueError] of either returns the empty frame. *)
Definition process_all_modes (w : World) (user start_date_str : string) : Run :=
  match Strptime.strptime start_date_str with
  | None => {| fetched := []; returned := Some [] |}
  | Some (y, m, d) =>
      match start_timestamp_of w (y, m, d) with
      | None => {| fetched := []; returned := Some [] |}
      | Some start_timestamp =>
          match archives_index w with
          | None => {| fetched := [index_url user]; returned := Some [] |}
          | Some all_archives =>
              match select_archives y m all_archives with
              | None => {| fetched := [index_url user]; returned := None |}
              | Some relevant_archives =>
                  {| fetched := index_url user :: relevant_archives;
                     returned :=
                       Some (download w user start_timestamp
                                      relevant_archives) |}
              end
          end
      end
  end.

(** ** The pandas and Python list operations the charts rely on *)

Module Pandas.

Section Sorting.
Context {A : Type} (leb : A -> A -> bool).

(** Insertion in front of the first element that is not smaller. *)
Fixpoint insert (x : A) (l : list A) : list A :=
  match l with
  | [] => [x]
  | y :: r => if leb x y then x :: y :: r else y :: insert x r
  end.

(** A stable sort: rows with equal keys keep their relative order. *)
Definition sort (l : list A) : list A := fold_right insert [] l.
End Sorting.

(** [Series.unique()]: the distinct values in order of first appearance. *)
Fixpoint unique {A : Type} (eqb : A -> A -> bool) (l : list A) : list A :=
  match l with
  | [] => []
  | x :: r => x :: filter (fun y => negb (eqb x y)) (unique eqb r)
  end.

(** [sorted(values)] and [sorted(values, reverse=True)] on integers. *)
Definition sorted (l : list Z) : list Z := sort Z.leb l.
Definition sorted_reverse (l : list Z) : list Z := rev (sort Z.leb (rev l)).

(** [len(frame)] and the number of rows passing a test. *)
Definition len {A : Type} (l : list A) : Z := Z.of_nat (List.length l).
Definition count {A : Type} (p : A -> bool) (l : list A) : Z := len (filter p l).

(** [range(start, stop, step)] for a step that is not zero. *)
Definition range (start stop step : Z) : list Z :=
  let n := if 0 <? step then (stop - start + step - 1) / step
           else if step <? 0 then (start - stop - step - 1) / (- step)
           else 0 in
  map (fun k => start + Z.of_nat k * step) (seq 0 (Z.to_nat n)).

(** [groupby(key).cumcount()]: for each row, how many earlier rows carry
    the same key. *)
Fixpoint cumcount_from (seen keys : list string) : list Z :=
  match keys with
  | [] => []
  | k :: r => count (String.eqb k) seen :: cumcount_from (k :: seen) r
  end.
Definition cumcount (keys : list string) : list Z := cumcount_from [] keys.

(** [sum(values)] *)
Definition sum (l : list Z) : Z := fold_right Z.add 0 l.

(** [round(num / den)] for [den > 0]: to the nearest integer, a tie goes
    to the even neighbour. *)
Definition round_half_even (num den : Z) : Z :=
  let q := num / den in
  let r := num mod den in
  if 2 * r <? den then q
  else if den <? 2 * r then q + 1
  else if Z.even q then q else q + 1.

(** [int(round(series.mean()))] *)
Definition mean_rounded (l : list Z) : Z := round_half_even (sum l) (len l).

(** [wins / total * 100] *)
Definition percentage (wins total : Z) : Q :=
  (inject_Z wins / inject_Z total * 100)%Q.

End Pandas.

(** What a chart function returns: a paragraph of text, or a figure. *)
Inductive Html (A : Type) :=
| Paragraph (text : string)
| Figure (data : A).
Arguments Paragraph {A} text.
Arguments Figure {A} data.

(** [df[df['Is960'] == is_960]] *)
Definition filter_variant (df : DataFrame) (is_960 : bool) : DataFrame :=
  filter (fun r => Bool.eqb (Is960 r) is_960) df.

(** [frame[frame['Mode'] == mode]] *)
Definition filter_mode (mode : string) (df : DataFrame) : DataFrame :=
  filter (fun r => String.eqb (Mode r) mode) df.

Definition is_win (r : MatchRecord) : bool := Outcome_eqb (Status r) Win.
Definition not_win (r : MatchRecord) : bool := negb (Outcome_eqb (Status r) Win).

(** ['Date'].dt.date *)
Definition DateOnly (r : MatchRecord) : Z := Calendar.date_of (Date r).

(** ** [create_overall_performance_chart] *)

Record DailyStat := {
  day : Z;
  Wins : Z;
  NonWins : Z;
  TotalGames : Z
}.

(** [groupby('DateOnly')]: one group per distinct day, days ascending. *)
Definition groupby_DateOnly (df : DataFrame) : list (Z * DataFrame) :=
  map (fun d => (d, filter (fun r => DateOnly r =? d) df))
      (Pandas.sorted (Pandas.unique Z.eqb (map DateOnly df))).

(** Lines 131-138; the [WinPct] column, never read afterwards, is left out. *)
Definition daily_stats (df : DataFrame) : list DailyStat :=
  map (fun g =>
         let wins := Pandas.count is_win (snd g) in
         let nonwins := Pandas.count not_win (snd g) in
         {| day := fst g; Wins := wins; NonWins := nonwins;
            TotalGames := wins + nonwins |})
      (groupby_DateOnly df).

(** The figure is the two stacked bar series over [daily_stats]. *)
Definition create_overall_performance_chart (df : DataFrame)
  : Html (list DailyStat) :=
  match df with
  | [] => Paragraph "<p>No games found.</p>"
  | _ => Figure (daily_stats df)
  end.

(** ** [create_interval_table] *)

Record IntervalStat := {
  stat_Mode : string;
  Games_Played : Z;
  Average_Rating : Z;
  Win_pct : Q
}.

(** The order of [sort_values(['Mode', 'Date'])]. *)
Definition Mode_Date_leb (a b : MatchRecord) : bool :=
  match String.compare (Mode a) (Mode b) with
  | Lt => true
  | Eq => Date a <=? Date b
  | Gt => false
  end.

(** The order of a mode's rows by timestamp alone. *)
Definition Date_leb (a b : MatchRecord) : bool := Date a <=? Date b.

(** [GameCount % GAME_INTERVAL == 0]; a zero interval yields no match. *)
Definition at_interval (interval game_count : Z) : bool :=
  if interval =? 0 then false else game_count mod interval =? 0.

(** The ['GameCount'] column of the sorted frame. *)
Definition GameCount (sorted_df : DataFrame) : list Z :=
  map (fun c => c + 1) (Pandas.cumcount (map Mode sorted_df)).

(** One entry of [interval_stats], lines 290-300. *)
Definition interval_stat (mode : string) (mode_data : DataFrame) (game_count : Z)
  : IntervalStat :=
  let games_up_to_interval := firstn (Z.to_nat game_count) mode_data in
  {| stat_Mode := mode;
     Games_Played := game_count;
     Average_Rating := Pandas.mean_rounded (map Rating games_up_to_interval);
     Win_pct := Pandas.percentage (Pandas.count is_win games_up_to_interval)
                                  game_count |}.

(** The loop of lines 286-300 over the sorted frame. *)
Definition interval_stats (interval : Z) (sorted_df : DataFrame)
  : list IntervalStat :=
  flat_map (fun mode =>
              let mode_data := filter_mode mode sorted_df in
              map (interval_stat mode mode_data)
                  (Pandas.range interval (Pandas.len mode_data + 1) interval))
           (Pandas.unique String.eqb (map Mode sorted_df)).

Definition mode_list (is_960 : bool) : list string :=
  if is_960 then ["Blitz960"; "Bullet960"; "Rapid960"; "Daily960"]
  else ["Blitz"; "Bullet"; "Rapid"; "Daily"].

(** The table: the milestones, the ['Games Played'] column and one column
    per mode of [mode_list]; a cell is the pair (rating, win %) that the
    source prints, or [None] for the dash. *)
Record IntervalTable := {
  milestones : list IntervalStat;
  games_played : list Z;
  pivot : list (string * list (option (Z * Q)))
}.

Definition pivot_column (interval_df : list IntervalStat) (games_col : list Z)
    (mode : string) : list (option (Z * Q)) :=
  let mode_data := filter (fun s => String.eqb (stat_Mode s) mode) interval_df in
  match mode_data with
  | [] => repeat None (List.length games_col)
  | _ =>
      map (fun games =>
             match filter (fun s => Games_Played s =? games) mode_data with
             | [] => None
             | s :: _ => Some (Average_Rating s, Win_pct s)
             end)
          games_col
  end.

(** [None] is the [KeyError] raised on an empty [interval_df], which needs
    a negative interval. *)
Definition create_interval_table (interval : Z) (df : DataFrame) (is_960 : bool)
  : option (Html IntervalTable) :=
  match filter_variant df is_960 with
  | [] => Some (Paragraph "<p>No games found for this variant.</p>")
  | filtered_df =>
      let filtered_df := Pandas.sort Mode_Date_leb filtered_df in
      match filter (at_interval interval) (GameCount filtered_df) with
      | [] => Some (Paragraph "<p>Not enough games to show intervals yet.</p>")
      | _ =>
          match interval_stats interval filtered_df with
          | [] => None
          | interval_df =>
              let games_col :=
                Pandas.sorted (Pandas.unique Z.eqb (map Games_Played interval_df)) in
              Some (Figure
                {| milestones := interval_df;
                   games_played := games_col;
                   pivot := map (fun mode =>
                                   (mode, pivot_column interval_df games_col mode))
                                (mode_list is_960) |})
          end
      end
  end.

(** The milestones a call emits: those of the table, none when the call
    answers with a paragraph. *)
Definition emitted_milestones (interval : Z) (df : DataFrame) (is_960 : bool)
  : list IntervalStat :=
  match create_interval_table interval df is_960 with
  | Some (Figure t) => milestones t
  | _ => []
  end.

(** ** [create_weekly_stats_table] *)

Module Week.

(** pandas' weekly period ['W'] (that is ['W-SUN'], weeks ending on
    Sunday): the ordinal of the period holding the day [d]. *)
Definition to_period (d : Z) : Z := (d + 3) / 7 + 1.

(** [Period.start_time] of a weekly period, as a day number. *)
Definition start_time (ordinal : Z) : Z := ordinal * 7 - 4 - 6.

(** [dt.to_period('W').apply(lambda x: x.start_time)] of a naive
    datetime. *)
Definition of_datetime (t : Z) : Z := start_time (to_period (Calendar.date_of t)).

(** Decimal digits of a number below [10 ^ width], zero-padded. *)
Fixpoint digits (width : nat) (n : Z) : string :=
  match width with
  | O => EmptyString
  | S k =>
      (digits k (n / 10)
       ++ String (ascii_of_N (Z.to_N (48 + n mod 10))) EmptyString)%string
  end.

(** [week.strftime('%Y-%m-%d')] *)
Definition strftime (d : Z) : string :=
  let '(y, m, dd) := Calendar.ord2ymd d in
  (digits 4 y ++ "-" ++ digits 2 m ++ "-" ++ digits 2 dd)%string.

End Week.

(** The ['Week'] column. *)
Definition Week_of (r : MatchRecord) : Z := Week.of_datetime (Date r).

(** A cell of the weekly table: the dash, or the three values the source
    prints as ["{total_games} ({win_pct:.1f}%) - {avg_elo}"]. *)
Inductive Cell :=
| NoData
| Stats (total_games : Z) (win_pct : Q) (avg_elo : Z).

Definition cell_games (c : Cell) : Z :=
  match c with
  | NoData => 0
  | Stats total_games _ _ => total_games
  end.

(** One entry of [weekly_stats]: the loop variable [week], the label under
    ['Week'] and the entries keyed by mode, in insertion order. *)
Record WeeklyRow := {
  week : Z;
  Week_label : string;
  cells : list (string * Cell)
}.

(** Lines 387-395. *)
Definition weekly_cell (week_data : DataFrame) (mode : string) : Cell :=
  let mode_data := filter_mode mode week_data in
  if 0 <? Pandas.len mode_data then
    let total_games := Pandas.len mode_data in
    let wins := Pandas.count is_win mode_data in
    Stats total_games (Pandas.percentage wins total_games)
          (Pandas.mean_rounded (map Rating mode_data))
  else NoData.

(** The loop of lines 382-397. *)
Definition weekly_stats (filtered_df : DataFrame) (is_960 : bool)
  : list WeeklyRow :=
  map (fun wk =>
         let week_data := filter (fun r => Week_of r =? wk) filtered_df in
         {| week := wk;
            Week_label := Week.strftime wk;
            cells := map (fun mode => (mode, weekly_cell week_data mode))
                         (mode_list is_960) |})
      (Pandas.sorted_reverse (Pandas.unique Z.eqb (map Week_of filtered_df))).

Definition create_weekly_stats_table (df : DataFrame) (is_960 : bool)
  : Html (list WeeklyRow) :=
  match filter_variant df is_960 with
  | [] => Paragraph "<p>No games found for this variant.</p>"
  | filtered_df => Figure (weekly_stats filtered_df is_960)
  end.

(** The entry of a row under a mode; [None] when the row has no such key. *)
Fixpoint lookup_cell (mode : string) (entries : list (string * Cell))
  : option Cell :=
  match entries with
  | [] => None
  | (k, c) :: rest => if String.eqb k mode then Some c else lookup_cell mode rest
  end.

(** The rows a call emits. *)
Definition weekly_rows (df : DataFrame) (is_960 : bool) : list WeeklyRow :=
  match create_weekly_stats_table df is_960 with
  | Figure rows => rows
  | Paragraph _ => []
  end.

(** ** [create_rating_boxplot] *)

(** One [go.Box] trace. *)
Record Box := {
  name : string;
  y : list Z;
  marker_color : string
}.

Definition color_map : list (string * string) :=
  [("Rapid", "#76b900"); ("Blitz", "#F0C800");
   ("Bullet", "#ca3431"); ("Daily", "#00BFFF");
   ("Rapid960", "#76b900"); ("Blitz960", "#F0C800");
   ("Bullet960", "#ca3431"); ("Daily960", "#00BFFF")].

(** [color_map.get(mode, default)] *)
Fixpoint dict_get (d : list (string * string)) (k default : string) : string :=
  match d with
  | [] => default
  | (k', v) :: rest => if String.eqb k' k then v else dict_get rest k default
  end.

Definition boxplot_mode_list (is_960 : bool) : list string :=
  if is_960 then ["Rapid960"; "Blitz960"; "Bullet960"; "Daily960"]
  else ["Rapid"; "Blitz"; "Bullet"; "Daily"].

(** [mode.replace('960', ' 960') if is_960 else mode] *)
Definition display_name (is_960 : bool) (mode : string) : string :=
  if is_960 then PyStr.replace "960" " 960" mode else mode.

(** The loop of lines 455-464. *)
Fixpoint box_traces (filtered_df : DataFrame) (is_960 : bool)
    (modes : list string) : list Box :=
  match modes with
  | [] => []
  | mode :: rest =>
      let mode_data := filter_mode mode filtered_df in
      if 0 <? Pandas.len mode_data then
        {| name := display_name is_960 mode;
           y := map Rating mode_data;
           marker_color := dict_get color_map mode "#888888" |}
        :: box_traces filtered_df is_960 rest
      else box_traces filtered_df is_960 rest
  end.

Definition create_rating_boxplot (df : DataFrame) (is_960 : bool)
  : Html (list Box) :=
  match filter_variant df is_960 with
  | [] => Paragraph "<p>No games found for this variant.</p>"
  | filtered_df => Figure (box_traces filtered_df is_960 (boxplot_mode_list is_960))
  end.

(** The traces a call emits. *)
Definition boxes (df : DataFrame) (is_960 : bool) : list Box :=
  match create_rating_boxplot df is_960 with
  | Figure traces => traces
  | Paragraph _ => []
  end.

(** A mode appears in the box plot when a trace carries its display name. *)
Definition appears (is_960 : bool) (mode : string) (traces : list Box) : bool :=
  existsb (fun b => String.eqb (name b) (display_name is_960 mode)) traces.

(** ** [dashboard] *)

(** The page answered to the request. *)
Inductive Page :=
| UserNotFound
| NoGamesFound (since : string)
| Rendered (df : DataFrame)
| ServerError.

Definition profile_url (user : string) : string :=
  "https://api.chess.com/pub/player/" ++ user.
Definition stats_url (user : string) : string :=
  "https://api.chess.com/pub/player/" ++ user ++ "/stats".

(** The route handler up to the choice of the page: the requested URLs in
    order, and the page.  [profile] tells whether the profile request
    answers something. *)
Definition dashboard (profile : bool) (w : World) (user start_date : string)
  : list string * Page :=
  if negb profile then ([profile_url user], UserNotFound)
  else
    let run := process_all_modes w user start_date in
    (profile_url user :: stats_url user :: fetched run,
     match returned run with
     | None => ServerError
     | Some [] => NoGamesFound start_date
     | Some df => Rendered df
     end).

(** ** [create_daily_games_chart] *)



(** [d.get(k)]: the value under a key, [None] when the key is missing. *)
Fixpoint dict_lookup {V : Type} (d : list (string * V)) (k : string)
  : option V :=
  match d with
  | [] => None
  | (k', v) :: rest => if String.eqb k' k then Some v else dict_lookup rest k
  end.






(** ** The current ratings of [dashboard] *)

(** [d[k] = v] on a dictionary kept in insertion order. *)
Fixpoint dict_set {V : Type} (d : list (string * V)) (k : string) (v : V)
  : list (string * V) :=
  match d with
  | [] => [(k, v)]
  | (k', v') :: rest =>
      if String.eqb k' k then (k', v) :: rest else (k', v') :: dict_set rest k v
  end.

Definition STANDARD_STATS : list string :=
  ["chess_rapid"; "chess_blitz"; "chess_bullet"; "chess_daily"].
Definition CHESS960_STATS : list string :=
  ["chess960_daily"; "chess960_rapid"; "chess960_blitz"; "chess960_bullet"].

(** Lines 683-696.  The answer of the stats request is [None] when it
    fails, else the dictionary from a stats key to the rating under
    [['last']['rating']]. *)
Definition current_ratings (stats : option (list (string * Z)))
  : list (string * Z) :=
  match stats with
  | None => []
  | Some d =>
      let after_standard :=
        fold_left (fun ratings mode =>
                     let mode_name :=
                       PyStr.capitalize (PyStr.replace "chess_" "" mode) in
                     match dict_lookup d mode with
                     | Some r => dict_set ratings mode_name r
                     | None => ratings
                     end)
                  STANDARD_STATS [] in
      fold_left (fun ratings mode =>
                   match dict_lookup d mode with
                   | Some r =>
                       let base_mode :=
                         PyStr.capitalize (PyStr.replace "chess960_" "" mode) in
                       dict_set ratings (base_mode ++ "960") r
                   | None => ratings
                   end)
                CHESS960_STATS after_standard
  end.

(** ** Sample inputs *)

Module Samples.

Definition user : string := "kxrook".
Definition start_date : string := "2025-11-01".

Definition archive (ym : string) : string :=
  "https://api.chess.com/pub/player/kxrook/games/" ++ ym.

Definition four_archives : list string :=
  [archive "2025/10"; archive "2025/11"; archive "2025/12"; archive "2026/01"].

Definition side (u : string) (r : Z) (res : string) : Side :=
  {| username := u; rating := r; result := res |}.

(** 2025-11-05 12:00:00 UTC *)
Definition noon_nov_5 : Z := 1762344000.

(** A Chess960 blitz game won by the user, with the white pieces. *)
Definition blitz960_win : Game :=
  {| end_time := noon_nov_5;
     time_class := Some "blitz";
     rules := Some "chess960";
     white := side "KxRook" 1510 "win";
     black := side "opponent" 1498 "resigned" |}.

(** A bullet game lost by the user, with the black pieces; the raw game
    carries no [rules] key. *)
Definition bullet_loss_no_rules : Game :=
  {| end_time := noon_nov_5 + 600;
     time_class := Some "bullet";
     rules := None;
     white := side "opponent" 1400 "win";
     black := side "kxrook" 1391 "checkmated" |}.

(** The clock of UTC: the naive local datetime is the instant itself;
    [timestamp] raises on the first day of year 1. *)
Definition utc_fromtimestamp (t : Z) : Z := t.
Definition utc_timestamp (dt : Z) : option Z :=
  if dt <? Calendar.day_number 1 1 2 * Calendar.DAY then None else Some dt.

(** A world on UTC whose only archive with games is November 2025. *)
Definition november (games : list Game) : World :=
  {| fromtimestamp := utc_fromtimestamp;
     timestamp := utc_timestamp;
     archives_index := Some four_archives;
     monthly := fun url =>
       if String.eqb url (archive "2025/11") then Some games else Some [] |}.

(** A world whose archive index answers an empty list. *)
Definition no_archives : World :=
  {| fromtimestamp := utc_fromtimestamp;
     timestamp := utc_timestamp;
     archives_index := Some [];
     monthly := fun _ => None |}.




Definition record (date rating : Z) (mode : string) (status : Outcome)
    (is_960 : bool) : MatchRecord :=
  {| Date := date; Rating := rating; Mode := mode; Status := status;
     Is960 := is_960 |}.

(** [n] standard blitz records, one per hour from [noon_nov_5] on,
    listed latest first; ratings climb by one, every third is a win. *)
Fixpoint blitz_records (n : nat) : DataFrame :=
  match n with
  | O => []
  | S k =>
      record (noon_nov_5 + 3600 * Z.of_nat k) (1500 + Z.of_nat k) "Blitz"
             (if (Z.of_nat k mod 3 =? 0) then Win else Loss) false
      :: blitz_records k
  end.

(** Three standard games of one day: two blitz wins and a bullet loss. *)
Definition three_games : DataFrame :=
  [record noon_nov_5 1500 "Blitz" Win false;
   record (noon_nov_5 + 600) 1508 "Blitz" Win false;
   record (noon_nov_5 + 1200) 1391 "Bullet" Loss false].

End Samples.

(** ** Notions used to state the properties *)

(** The result codes of the classifier's table that stand for a draw and
    for a loss. *)
Definition DRAW_CODES : list string :=
  ["agreed"; "repetition"; "stalemate"; "insufficient_material"; "50move";
   "timevsinsufficientmaterial"].
Definition LOSS_CODES : list string :=
  ["checkmated"; "resigned"; "timeout"; "abandoned"].

(** Equality of outcomes is decidable. *)
Definition Outcome_eq_dec (a b : Outcome) : {a = b} + {a <> b}.
Proof. decide equality. Defined.

(** The number of wins among some records. *)
Definition wins_among (l : DataFrame) : Z :=
  Z.of_nat (count_occ Outcome_eq_dec (map Status l) Win).

(** The records of a collection that have a given variant flag and mode
    name, in their order. *)
Definition records_of (mode : string) (is_960 : bool) (df : DataFrame)
  : DataFrame :=
  filter (fun r => if string_dec (Mode r) mode
                   then (if bool_dec (Is960 r) is_960 then true else false)
                   else false)
         df.

(** The four recognized mode names: the capitalised time classes. *)
Definition FOUR_MODES : list string := ["Rapid"; "Blitz"; "Bullet"; "Daily"].

(** The test of the Archive Selector on a URL whose last two path
    segments read as (year, month). *)
Definition selected (start_year start_month : Z) (url : string) : bool :=
  match archive_year_month url with
  | Some (year, month) => on_or_after start_year start_month year month
  | None => false
  end.

(** The game-count checkpoints [N, 2N, 3N, ...] up to [n] games. *)
Definition checkpoints (interval n : Z) : list Z :=
  map (fun k => Z.of_nat k * interval) (seq 1 (Z.to_nat (n / interval))).

(** A mode's records of a collection in ascending order of timestamp
    (records with equal timestamps in their order of arrival). *)
Definition by_timestamp (mode : string) (df : DataFrame) : DataFrame :=
  Pandas.sort Date_leb (filter_mode mode df).

(** The milestones of one mode. *)
Definition milestones_of (mode : string) (stats : list IntervalStat)
  : list IntervalStat :=
  filter (fun s => String.eqb (stat_Mode s) mode) stats.

(** The column of a mode in the table; [None] when there is none. *)
Fixpoint pivot_lookup (mode : string)
    (columns : list (string * list (option (Z * Q))))
  : option (list (option (Z * Q))) :=
  match columns with
  | [] => None
  | (k, col) :: rest =>
      if String.eqb k mode then Some col else pivot_lookup mode rest
  end.

(** The cell of a mode at a game count: the milestone's rating and win
    percentage when the count is a checkpoint of the mode, else the dash. *)
Definition expected_cell (interval : Z) (mode : string) (recs : DataFrame)
    (games : Z) : option (Z * Q) :=
  if existsb (Z.eqb games) (checkpoints interval (Pandas.len recs))
  then Some (Average_Rating (interval_stat mode recs games),
             Win_pct (interval_stat mode recs games))
  else None.

(** The overall daily series a call emits. *)
Definition daily_series (df : DataFrame) : list DailyStat :=
  match create_overall_performance_chart df with
  | Figure stats => stats
  | Paragraph _ => []
  end.

(** The records of a calendar day. *)
Definition on_day (d : Z) (df : DataFrame) : DataFrame :=
  filter (fun r => DateOnly r =? d) df.

(** [m] is the Monday on or before the day [d]. *)
Definition monday_on_or_before (d m : Z) : Prop :=
  Calendar.weekday m = 0 /\ m <= d < m + 7.

(** The records of the week that starts on day [m]. *)
Definition in_week (m : Z) (df : DataFrame) : DataFrame :=
  filter (fun r => Week_of r =? m) df.

(** The game count a weekly row reports for a mode. *)
Definition row_games (mode : string) (row : WeeklyRow) : Z :=
  match lookup_cell mode (cells row) with
  | Some c => cell_games c
  | None => 0
  end.

(** The trace of a mode in the box plot. *)
Definition box_of (filtered_df : DataFrame) (is_960 : bool) (mode : string)
  : Box :=
  {| name := display_name is_960 mode;
     y := map Rating (filter_mode mode filtered_df);
     marker_color := dict_get color_map mode "#888888" |}.

(** The month of the archive [a] is not after the month of [b]. *)
Definition month_not_after (a b : string) : Prop :=
  match archive_year_month a, archive_year_month b with
  | Some (y1, m1), Some (y2, m2) => y1 < y2 \/ (y1 = y2 /\ m1 <= m2)
  | _, _ => False
  end.



(** One pass of a loop of lines 686-696, given a mode name and the rating
    found under its stats key, if any. *)
Definition set_found (ratings : list (string * Z)) (kv : string * option Z)
  : list (string * Z) :=
  match snd kv with
  | Some r => dict_set ratings (fst kv) r
  | None => ratings
  end.

(** ** Properties *)

(** *** Outcome Classifier *)

Lemma existsb_eqb_In (s : string) (l : list string) :
  existsb (String.eqb s) l = true <-> In s l.
Proof.
  rewrite existsb_exists. split.
  - intros [x [Hin Heq]]. apply String.eqb_eq in Heq. now subst.
  - intros Hin. exists s. split; [assumption | apply String.eqb_refl].
Qed.

Lemma existsb_eqb_not_In (s : string) (l : list string) :
  ~ In s l -> existsb (String.eqb s) l = false.
Proof.
  intros Hn. destruct (existsb (String.eqb s) l) eqn:E; [|reflexivity].
  apply existsb_eqb_In in E. contradiction.
Qed.

(** C2: the classifier is the fixed table: [win] is a Win, the six draw
    codes are Draws, the four loss codes are Losses, every other string is
    a Draw; the four sample codes classify as listed; the function answers
    on every string. *)
Theorem game_status_table :
  game_status "win" = Win /\
  (forall s, In s DRAW_CODES -> game_status s = Draw) /\
  (forall s, In s LOSS_CODES -> game_status s = Loss) /\
  (forall s, s <> "win" -> ~ In s DRAW_CODES -> ~ In s LOSS_CODES ->
             game_status s = Draw) /\
  (game_status "win" = Win /\ game_status "resigned" = Loss /\
   game_status "stalemate" = Draw /\ game_status "unknown_code" = Draw) /\
  (forall s, game_status s = Win \/ game_status s = Draw \/ game_status s = Loss).
Proof.
  repeat split; try reflexivity.
  - intros s Hin. unfold DRAW_CODES in Hin. simpl in Hin.
    repeat (destruct Hin as [<- | Hin]; [reflexivity|]). contradiction.
  - intros s Hin. unfold LOSS_CODES in Hin. simpl in Hin.
    repeat (destruct Hin as [<- | Hin]; [reflexivity|]). contradiction.
  - intros s Hw Hd Hl. unfold game_status.
    pose proof (existsb_eqb_not_In s LOSS_CODES Hl) as El.
    assert (Ed : existsb (String.eqb s) ("win" :: DRAW_CODES) = false).
    { apply existsb_eqb_not_In. intros [E | Hin]; [now subst | exact (Hd Hin)]. }
    unfold LOSS_CODES in El. unfold DRAW_CODES in Ed.
    rewrite Ed, El. reflexivity.
  - intros s. destruct (game_status s); auto.
Qed.

(** The table applied to one code of each group. *)
Lemma game_status_table_witness :
  game_status "repetition" = Draw /\ game_status "timeout" = Loss /\
  game_status "flagged" = Draw.
Proof.
  destruct game_status_table as [_ [Hd [Hl [Ho _]]]].
  split; [|split].
  - apply Hd. simpl. auto.
  - apply Hl. simpl. auto 6.
  - apply Ho.
    + discriminate.
    + simpl. intros H. repeat (destruct H as [H | H]; [discriminate|]). exact H.
    + simpl. intros H. repeat (destruct H as [H | H]; [discriminate|]). exact H.
Defined.

(** *** Archive Selector *)

Lemma on_or_after_spec (sy sm year month : Z) :
  on_or_after sy sm year month = true <->
  (year > sy \/ (year = sy /\ month >= sm)).
Proof.
  unfold on_or_after.
  rewrite orb_true_iff, andb_true_iff, Z.ltb_lt, Z.eqb_eq, Z.leb_le. lia.
Qed.

Lemma select_archives_filter (sy sm : Z) (urls : list string) :
  Forall (fun u => archive_year_month u <> None) urls ->
  select_archives sy sm urls = Some (filter (selected sy sm) urls).
Proof.
  induction 1 as [|u urls Hu _ IH]; [reflexivity|].
  simpl. unfold selected at 1.
  destruct (archive_year_month u) as [[year month]|]; [|contradiction].
  rewrite IH. reflexivity.
Qed.

(** C5: on a list of archive references (URLs ending in year and month),
    the selector returns exactly the references, in their order, whose
    year is after the cutoff year or equal to it with a month not before
    the cutoff month; with cutoff 2025-11 and the months 2025/10, 2025/11,
    2025/12, 2026/01 the last three are selected. *)
Theorem select_archives_subsequence :
  (forall sy sm urls,
      Forall (fun u => archive_year_month u <> None) urls ->
      select_archives sy sm urls = Some (filter (selected sy sm) urls)) /\
  (forall sy sm url year month,
      archive_year_month url = Some (year, month) ->
      (selected sy sm url = true <->
       (year > sy \/ (year = sy /\ month >= sm)))) /\
  map archive_year_month Samples.four_archives
    = [Some (2025, 10); Some (2025, 11); Some (2025, 12); Some (2026, 1)] /\
  select_archives 2025 11 Samples.four_archives
    = Some [Samples.archive "2025/11"; Samples.archive "2025/12";
            Samples.archive "2026/01"] /\
  fetched (process_all_modes (Samples.november []) Samples.user Samples.start_date)
    = [index_url Samples.user; Samples.archive "2025/11";
       Samples.archive "2025/12"; Samples.archive "2026/01"].
Proof.
  split; [exact select_archives_filter|].
  split.
  - intros sy sm url year month E. unfold selected. rewrite E.
    apply on_or_after_spec.
  - repeat split; vm_compute; reflexivity.
Qed.

(** The selector on the four sample months, through the general statement. *)
Lemma select_archives_subsequence_witness :
  select_archives 2025 11 Samples.four_archives
    = Some (filter (selected 2025 11) Samples.four_archives) /\
  (selected 2025 11 (Samples.archive "2026/01") = true <->
   (2026 > 2025 \/ (2026 = 2025 /\ 1 >= 11))).
Proof.
  destruct select_archives_subsequence as [Hsel [Hspec _]].
  split.
  - apply Hsel. repeat constructor; vm_compute; discriminate.
  - apply Hspec. vm_compute. reflexivity.
Defined.

(** *** Record Normalizer *)

Lemma capitalize_time_class (tc : string) :
  In tc TIME_CLASSES -> In (PyStr.capitalize tc) FOUR_MODES.
Proof.
  unfold TIME_CLASSES. simpl.
  intros H. repeat (destruct H as [<- | H]; [vm_compute; tauto|]). contradiction.
Qed.

Lemma normalize_Some (local : Z -> Z) (user : string) (ts : Z) (g : Game)
    (r : MatchRecord) :
  normalize local user ts g = Some r ->
  ts <= end_time g /\
  exists tc, time_class g = Some tc /\ In tc TIME_CLASSES /\
    r = {| Date := local (end_time g);
           Rating := rating (user_side user g);
           Mode := mode_name tc (is_960_of g);
           Status := game_status (result (user_side user g));
           Is960 := is_960_of g |}.
Proof.
  unfold normalize.
  destruct (end_time g <? ts) eqn:Et; [discriminate|].
  apply Z.ltb_ge in Et.
  destruct (time_class g) as [tc|]; [|discriminate].
  destruct (recognized (Some tc)) eqn:Er; [|discriminate].
  intros [= <-]. split; [assumption|].
  exists tc. repeat split. now apply existsb_eqb_In.
Qed.

Lemma normalize_accepts (local : Z -> Z) (user : string) (ts : Z) (g : Game) :
  normalize local user ts g <> None <->
  ts <= end_time g /\ recognized (time_class g) = true.
Proof.
  unfold normalize.
  destruct (end_time g <? ts) eqn:Et.
  - apply Z.ltb_lt in Et. split; [congruence | lia].
  - apply Z.ltb_ge in Et. destruct (time_class g) as [tc|].
    + destruct (recognized (Some tc)); split; try congruence; intuition congruence.
    + simpl. split; [congruence | intros [_ H]; discriminate].
Qed.

(** C9: when the raw game has no rule-set field, the rule set is standard
    chess: the game is kept or skipped exactly as with the field set to
    [chess], the skip depends on the cutoff and the time class alone, and a
    kept record has [Is960 = false] and an unsuffixed mode name. *)
Theorem normalize_missing_rules (local : Z -> Z) (user : string) (ts : Z) (g : Game) :
  rules g = None ->
  normalize local user ts g
    = normalize local user ts
        {| end_time := end_time g; time_class := time_class g;
           rules := Some "chess"; white := white g; black := black g |} /\
  (normalize local user ts g <> None <->
   ts <= end_time g /\ recognized (time_class g) = true) /\
  (forall r, normalize local user ts g = Some r ->
     Is960 r = false /\ In (Mode r) FOUR_MODES /\
     exists tc, time_class g = Some tc /\ Mode r = PyStr.capitalize tc).
Proof.
  intros Hr.
  assert (H960 : is_960_of g = false) by (unfold is_960_of; now rewrite Hr).
  split; [|split].
  - unfold normalize, user_side, is_960_of. simpl. rewrite Hr. reflexivity.
  - apply normalize_accepts.
  - intros r Hn. apply normalize_Some in Hn.
    destruct Hn as [_ [tc [Htc [Hin ->]]]]. simpl. rewrite H960.
    split; [reflexivity|]. split.
    + now apply capitalize_time_class.
    + exists tc. split; [assumption | reflexivity].
Qed.

(** A bullet game without a [rules] key is kept as a standard Bullet
    record. *)
Lemma normalize_missing_rules_witness :
  rules Samples.bullet_loss_no_rules = None /\
  normalize Samples.utc_fromtimestamp Samples.user 1761955200 Samples.bullet_loss_no_rules
    = Some (Samples.record 1762344600 1391 "Bullet" Loss false) /\
  (forall r,
     normalize Samples.utc_fromtimestamp Samples.user 1761955200 Samples.bullet_loss_no_rules = Some r ->
     Is960 r = false /\ In (Mode r) FOUR_MODES /\
     exists tc, time_class Samples.bullet_loss_no_rules = Some tc /\
                Mode r = PyStr.capitalize tc).
Proof.
  split; [reflexivity|]. split; [vm_compute; reflexivity|].
  apply (normalize_missing_rules Samples.utc_fromtimestamp Samples.user 1761955200
           Samples.bullet_loss_no_rules).
  reflexivity.
Defined.

(** *** The history frame of a run *)

Lemma history_In (local : Z -> Z) (user : string) (ts : Z) (games : list Game)
    (r : MatchRecord) :
  In r (history local user ts games) <->
  exists g, In g games /\ normalize local user ts g = Some r.
Proof.
  induction games as [|g games IH]; simpl.
  - split; [contradiction | intros [g [[] _]]].
  - destruct (normalize local user ts g) as [r'|] eqn:E; simpl; rewrite IH.
    + split.
      * intros [<- | [g' [Hin Hn]]]; [exists g; auto | exists g'; auto].
      * intros [g' [[<- | Hin] Hn]]; [left; congruence | right; exists g'; auto].
    + split.
      * intros [g' [Hin Hn]]. exists g'; auto.
      * intros [g' [[<- | Hin] Hn]]; [congruence | exists g'; auto].
Qed.

Lemma download_In (w : World) (user : string) (ts : Z) (urls : list string)
    (r : MatchRecord) :
  In r (download w user ts urls) ->
  exists url games g,
    In url urls /\ monthly w url = Some games /\ In g games /\
    normalize (fromtimestamp w) user ts g = Some r.
Proof.
  induction urls as [|url urls IH]; simpl; [contradiction|].
  destruct (monthly w url) as [games|] eqn:E.
  - rewrite in_app_iff. intros [Hin | Hin].
    + apply history_In in Hin. destruct Hin as [g [Hg Hn]].
      exists url, games, g. auto.
    + destruct (IH Hin) as [url' [games' [g [Hu [Hm [Hg Hn]]]]]].
      exists url', games', g. auto.
  - intros Hin. destruct (IH Hin) as [url' [games' [g [Hu [Hm [Hg Hn]]]]]].
    exists url', games', g. auto.
Qed.

Lemma select_archives_incl (sy sm : Z) (urls sel : list string) :
  select_archives sy sm urls = Some sel -> incl sel urls.
Proof.
  revert sel. induction urls as [|u urls IH]; simpl; intros sel.
  - intros [= <-]. apply incl_refl.
  - destruct (archive_year_month u) as [[year month]|]; [|discriminate].
    destruct (select_archives sy sm urls) as [sel'|]; [|discriminate].
    intros [= <-]. specialize (IH sel' eq_refl).
    destruct (on_or_after sy sm year month).
    + apply incl_cons; [now left | now apply incl_tl].
    + now apply incl_tl.
Qed.




(** *** An unparsable cutoff date *)

(** C4, the counterexample: with a cutoff that does not parse the call
    returns normally, and returns the very frame it returns for a valid
    cutoff when no data is found; the dashboard answers the same kind of
    page in both cases, after two requests of its own. *)
Lemma unparsable_date_returns_like_no_data :
  Strptime.strptime "not-a-date" = None /\
  Strptime.strptime Samples.start_date = Some (2025, 11, 1) /\
  returned (process_all_modes Samples.no_archives Samples.user "not-a-date")
    = Some [] /\
  returned (process_all_modes Samples.no_archives Samples.user Samples.start_date)
    = Some [] /\
  dashboard true Samples.no_archives Samples.user "not-a-date"
    = ([profile_url Samples.user; stats_url Samples.user],
       NoGamesFound "not-a-date") /\
  snd (dashboard true Samples.no_archives Samples.user Samples.start_date)
    = NoGamesFound Samples.start_date.
Proof. repeat split. Qed.

(** C4, as amended: when the cutoff text does not parse,
    [process_all_modes] requests nothing and returns the empty frame
    without raising, which is also what a run with a valid cutoff returns
    when the archive index gives nothing; the dashboard, after its profile
    and rating requests, answers the no-games page. *)
Theorem unparsable_date_empty_frame (w : World) (user s : string) :
  Strptime.strptime s = None ->
  process_all_modes w user s = {| fetched := []; returned := Some [] |} /\
  dashboard true w user s
    = ([profile_url user; stats_url user], NoGamesFound s) /\
  (forall s', Strptime.strptime s' <> None -> archives_index w = None ->
     returned (process_all_modes w user s')
       = returned (process_all_modes w user s)).
Proof.
  intros Hs.
  assert (Hrun : process_all_modes w user s
                 = {| fetched := []; returned := Some [] |})
    by (unfold process_all_modes; now rewrite Hs).
  split; [exact Hrun|]. split.
  - unfold dashboard. simpl. rewrite Hrun. reflexivity.
  - intros s' Hs' Hidx. rewrite Hrun. unfold process_all_modes.
    destruct (Strptime.strptime s') as [[[y m] d]|]; [|contradiction].
    destruct (start_timestamp_of w (y, m, d)); [rewrite Hidx|]; reflexivity.
Qed.

(** The statement at a cutoff text that is not a date. *)
Lemma unparsable_date_empty_frame_witness :
  Strptime.strptime "not-a-date" = None /\
  process_all_modes (Samples.november [Samples.blitz960_win]) Samples.user
                    "not-a-date"
    = {| fetched := []; returned := Some [] |}.
Proof.
  split; [reflexivity|].
  apply (unparsable_date_empty_frame (Samples.november [Samples.blitz960_win])
           Samples.user "not-a-date").
  reflexivity.
Defined.

(** *** Facts on the list operations *)

Section SortFacts.
Context {A : Type} (leb : A -> A -> bool).

Let R (a b : A) : Prop := leb a b = true.

Hypothesis leb_total : forall a b, leb a b = false -> leb b a = true.
Hypothesis leb_trans : forall a b c,
    leb a b = true -> leb b c = true -> leb a c = true.

Lemma insert_perm (x : A) (l : list A) :
  Permutation (Pandas.insert leb x l) (x :: l).
Proof.
  induction l as [|y l IH]; simpl; [apply Permutation_refl|].
  destruct (leb x y); [apply Permutation_refl|].
  eapply Permutation_trans; [apply perm_skip, IH | apply perm_swap].
Qed.

Lemma sort_perm (l : list A) : Permutation (Pandas.sort leb l) l.
Proof.
  induction l as [|x l IH]; simpl; [constructor|].
  eapply Permutation_trans; [apply insert_perm | now apply perm_skip].
Qed.

Lemma sort_In (l : list A) (a : A) : In a (Pandas.sort leb l) <-> In a l.
Proof.
  split; apply Permutation_in; [|apply Permutation_sym]; apply sort_perm.
Qed.

Lemma sort_length (l : list A) :
  List.length (Pandas.sort leb l) = List.length l.
Proof. apply Permutation_length, sort_perm. Qed.

Lemma insert_sorted (x : A) (l : list A) :
  StronglySorted R l -> StronglySorted R (Pandas.insert leb x l).
Proof.
  induction 1 as [|y l Hs IH Hy]; simpl.
  - repeat constructor.
  - destruct (leb x y) eqn:E.
    + constructor; [now constructor|].
      constructor; [exact E|].
      rewrite Forall_forall in *. intros z Hz. eapply leb_trans; eauto.
      apply Hy, Hz.
    + constructor; [exact IH|].
      rewrite Forall_forall in *. intros z Hz.
      apply (Permutation_in _ (insert_perm x l)) in Hz.
      destruct Hz as [<- | Hz]; [now apply leb_total | now apply Hy].
Qed.

Lemma sort_sorted (l : list A) : StronglySorted R (Pandas.sort leb l).
Proof.
  induction l as [|x l IH]; simpl; [constructor | now apply insert_sorted].
Qed.

(** Inserting in front of a list whose elements are all at least [x]. *)
Lemma insert_below (x : A) (l : list A) :
  Forall (R x) l -> Pandas.insert leb x l = x :: l.
Proof.
  destruct 1 as [|y l Hy _]; simpl; [reflexivity|].
  unfold R in Hy. now rewrite Hy.
Qed.

Lemma filter_insert (p : A -> bool) (x : A) (l : list A) :
  StronglySorted R l ->
  filter p (Pandas.insert leb x l)
    = if p x then Pandas.insert leb x (filter p l) else filter p l.
Proof.
  induction 1 as [|y l Hs IH Hy]; simpl.
  - destruct (p x); reflexivity.
  - destruct (leb x y) eqn:E; simpl.
    + destruct (p x); [|reflexivity].
      symmetry. f_equal.
      change (Pandas.insert leb x (filter p (y :: l)) = x :: filter p (y :: l)).
      apply insert_below. apply Forall_forall. intros z Hz.
      apply filter_In in Hz. destruct Hz as [[<- | Hz] _]; [exact E|].
      rewrite Forall_forall in Hy.
      unfold R. eapply leb_trans; [exact E | now apply Hy].
    + rewrite IH. destruct (p y), (p x); simpl; try rewrite E; reflexivity.
Qed.

(** A stable sort commutes with the selection of rows. *)
Lemma filter_sort (p : A -> bool) (l : list A) :
  filter p (Pandas.sort leb l) = Pandas.sort leb (filter p l).
Proof.
  induction l as [|x l IH]; simpl; [reflexivity|].
  rewrite filter_insert by apply sort_sorted.
  rewrite IH. destruct (p x); reflexivity.
Qed.

End SortFacts.

(** Two orders that agree on the rows of a frame sort it alike. *)
Lemma insert_ext {A : Type} (leb1 leb2 : A -> A -> bool) (x : A) (l : list A) :
  (forall b, In b l -> leb1 x b = leb2 x b) ->
  Pandas.insert leb1 x l = Pandas.insert leb2 x l.
Proof.
  induction l as [|y l IH]; simpl; intros H; [reflexivity|].
  rewrite (H y) by now left.
  destruct (leb2 x y); [reflexivity|].
  f_equal. apply IH. intros b Hb. apply H. now right.
Qed.

Lemma sort_ext {A : Type} (leb1 leb2 : A -> A -> bool) (l : list A) :
  (forall a b, In a l -> In b l -> leb1 a b = leb2 a b) ->
  Pandas.sort leb1 l = Pandas.sort leb2 l.
Proof.
  induction l as [|x l IH]; simpl; intros H; [reflexivity|].
  rewrite IH by (intros a b Ha Hb; apply H; now right).
  apply insert_ext. intros b Hb. apply H; [now left|].
  right. eapply Permutation_in; [apply sort_perm | exact Hb].
Qed.

Section UniqueFacts.
Context {A : Type} (eqb : A -> A -> bool).
Hypothesis eqb_spec : forall a b, eqb a b = true <-> a = b.

Lemma unique_In (l : list A) (a : A) : In a (Pandas.unique eqb l) <-> In a l.
Proof.
  induction l as [|x l IH]; simpl; [tauto|].
  rewrite filter_In, IH. split.
  - intros [H | [H _]]; auto.
  - intros [H | H]; [now left|].
    destruct (eqb x a) eqn:E; [left; now apply eqb_spec | right; auto].
Qed.

Lemma unique_NoDup (l : list A) : NoDup (Pandas.unique eqb l).
Proof.
  induction l as [|x l IH]; simpl; constructor.
  - rewrite filter_In. intros [_ H].
    assert (E : eqb x x = true) by now apply eqb_spec.
    now rewrite E in H.
  - now apply NoDup_filter.
Qed.

End UniqueFacts.

Lemma Zleb_total (a b : Z) : (a <=? b) = false -> (b <=? a) = true.
Proof. rewrite Z.leb_gt, Z.leb_le. lia. Qed.

Lemma Zleb_trans (a b c : Z) :
  (a <=? b) = true -> (b <=? c) = true -> (a <=? c) = true.
Proof. rewrite !Z.leb_le. lia. Qed.

Lemma sorted_NoDup_lt (l : list Z) :
  StronglySorted (fun a b => (a <=? b) = true) l -> NoDup l ->
  StronglySorted Z.lt l.
Proof.
  induction 1 as [|x l Hs IH Hx]; intros Hn; constructor.
  - apply IH. now inversion Hn.
  - inversion Hn as [|? ? Hnin _]; subst.
    rewrite Forall_forall in *. intros z Hz.
    specialize (Hx z Hz). cbv beta in Hx. apply Z.leb_le in Hx.
    assert (Hxz : x <> z) by (intros ->; contradiction).
    clear - Hx Hxz. lia.
Qed.

(** The distinct values of a column in ascending order. *)
Lemma sorted_unique_ascending (l : list Z) :
  StronglySorted Z.lt (Pandas.sorted (Pandas.unique Z.eqb l)).
Proof.
  apply sorted_NoDup_lt.
  - apply sort_sorted; [exact Zleb_total | exact Zleb_trans].
  - eapply Permutation_NoDup.
    + apply Permutation_sym, sort_perm.
    + apply unique_NoDup, Z.eqb_eq.
Qed.

Lemma sorted_unique_In (l : list Z) (a : Z) :
  In a (Pandas.sorted (Pandas.unique Z.eqb l)) <-> In a l.
Proof.
  unfold Pandas.sorted. rewrite sort_In. apply unique_In, Z.eqb_eq.
Qed.

Lemma count_split {A : Type} (p : A -> bool) (l : list A) :
  Pandas.count p l + Pandas.count (fun a => negb (p a)) l = Pandas.len l.
Proof.
  unfold Pandas.count, Pandas.len. rewrite <- Nat2Z.inj_add. f_equal.
  induction l as [|x l IH]; simpl; [reflexivity|].
  destruct (p x); simpl; lia.
Qed.

(** *** Daily Aggregator, overall series *)

Lemma daily_series_stats (df : DataFrame) : daily_series df = daily_stats df.
Proof. destruct df; reflexivity. Qed.

Lemma daily_stats_days (df : DataFrame) :
  map day (daily_stats df)
    = Pandas.sorted (Pandas.unique Z.eqb (map DateOnly df)).
Proof.
  unfold daily_stats, groupby_DateOnly. rewrite !map_map. simpl.
  apply map_id.
Qed.

(** C6: in the overall series, for every day of the output the Win count
    plus the non-Win count is the number of records of that day, which is
    also the reported total; the days are those holding a record, in
    ascending order. *)
Theorem daily_series_counts (df : DataFrame) :
  Forall (fun s =>
            Wins s + NonWins s = Pandas.len (on_day (day s) df) /\
            Wins s = Pandas.count is_win (on_day (day s) df) /\
            NonWins s = Pandas.count not_win (on_day (day s) df) /\
            TotalGames s = Pandas.len (on_day (day s) df))
         (daily_series df) /\
  StronglySorted Z.lt (map day (daily_series df)) /\
  (forall d, In d (map day (daily_series df)) <->
             exists r, In r df /\ DateOnly r = d).
Proof.
  rewrite daily_series_stats. split; [|split].
  - unfold daily_stats, groupby_DateOnly. rewrite map_map.
    apply Forall_forall. intros s Hs. apply in_map_iff in Hs.
    destruct Hs as [d [<- _]]. simpl. fold (on_day d df).
    pose proof (count_split is_win (on_day d df)) as Hc.
    unfold not_win. fold (is_win). repeat split; try reflexivity; exact Hc.
  - rewrite daily_stats_days. apply sorted_unique_ascending.
  - intros d. rewrite daily_stats_days, sorted_unique_In, in_map_iff.
    split; intros [r [H1 H2]]; exists r; auto.
Qed.

(** *** Calendar dates *)

(** Linear arithmetic with quotients and remainders by literals. *)
Ltac euclid := Z.to_euclidean_division_equations; lia.

Lemma is_leap_spec (y : Z) :
  Calendar.is_leap y = true <-> (y mod 4 = 0 /\ (y mod 100 <> 0 \/ y mod 400 = 0)).
Proof.
  unfold Calendar.is_leap.
  rewrite andb_true_iff, orb_true_iff, negb_true_iff, !Z.eqb_eq, Z.eqb_neq.
  tauto.
Qed.

Lemma month_cases (m : Z) :
  1 <= m <= 12 ->
  m = 1 \/ m = 2 \/ m = 3 \/ m = 4 \/ m = 5 \/ m = 6 \/
  m = 7 \/ m = 8 \/ m = 9 \/ m = 10 \/ m = 11 \/ m = 12.
Proof. lia. Qed.

(** Evaluation of the calendar tables at literal months. *)
Ltac calendar_consts :=
  repeat match goal with
  | |- context [Calendar.DAYS_BEFORE_MONTH ?k] =>
      let x := eval vm_compute in (Calendar.DAYS_BEFORE_MONTH k) in
      change (Calendar.DAYS_BEFORE_MONTH k) with x
  | |- context [Calendar.is_leap 1] => change (Calendar.is_leap 1) with false
  | |- context [Z.pos ?a <? Z.pos ?b] =>
      let x := eval vm_compute in (Z.pos a <? Z.pos b) in
      change (Z.pos a <? Z.pos b) with x
  | |- context [Z.pos ?a =? Z.pos ?b] =>
      let x := eval vm_compute in (Z.pos a =? Z.pos b) in
      change (Z.pos a =? Z.pos b) with x
  | |- context [Z.pos ?a - Z.pos ?b] =>
      let x := eval vm_compute in (Z.pos a - Z.pos b) in
      change (Z.pos a - Z.pos b) with x
  | |- context [andb _ _] => progress simpl andb
  | |- context [orb _ _] => progress simpl orb
  | |- _ => progress cbv iota
  end.

(** [_ord2ymd] inverts [toordinal]: the date it reads off a day number is
    a calendar date with that day number. *)
Lemma ord2ymd_roundtrip (d : Z) :
  let '(y, m, dd) := Calendar.ord2ymd d in
  Calendar.day_number y m dd = d /\ 1 <= m <= 12 /\ 1 <= dd <= Calendar.days_in_month y m.
Proof.
  unfold Calendar.ord2ymd, Calendar.EPOCH_ORDINAL.
  set (n := d + 719163 - 1).
  set (n400 := n / 146097). set (r400 := n mod 146097).
  set (n100 := r400 / 36524). set (r100 := r400 mod 36524).
  set (n4 := r100 / 1461). set (r4 := r100 mod 1461).
  set (n1 := r4 / 365). set (r1 := r4 mod 365).
  assert (H400 : n = 146097 * n400 + r400 /\ 0 <= r400 < 146097)
    by (unfold n400, r400; euclid).
  assert (H100 : r400 = 36524 * n100 + r100 /\ 0 <= r100 < 36524 /\ 0 <= n100 <= 4)
    by (unfold n100, r100; euclid).
  assert (H4 : r100 = 1461 * n4 + r4 /\ 0 <= r4 < 1461 /\ 0 <= n4 <= 24)
    by (unfold n4, r4; euclid).
  assert (H1 : r4 = 365 * n1 + r1 /\ 0 <= r1 < 365 /\ 0 <= n1 <= 4)
    by (unfold n1, r1; euclid).
  clearbody n400 r400 n100 r100 n4 r4 n1 r1.
  destruct ((n1 =? 4) || (n100 =? 4)) eqn:Eend.
  - apply orb_true_iff in Eend. rewrite !Z.eqb_eq in Eend.
    unfold Calendar.day_number, Calendar.ymd2ord, Calendar.days_before_year, Calendar.days_before_month, Calendar.EPOCH_ORDINAL.
    change (Calendar.DAYS_BEFORE_MONTH 12) with 334. change (2 <? 12) with true. simpl andb.
    change (Calendar.days_in_month _ 12) with 31.
    assert (Hl : Calendar.is_leap (n400 * 400 + 1 + n100 * 100 + n4 * 4 + n1 - 1) = true).
    { apply is_leap_spec. destruct Eend; euclid. }
    rewrite Hl. split; [|lia].
    destruct Eend; euclid.
  - apply orb_false_iff in Eend. rewrite !Z.eqb_neq in Eend.
    set (year := n400 * 400 + 1 + n100 * 100 + n4 * 4 + n1).
    set (leapyear := (n1 =? 3) && (negb (n4 =? 24) || (n100 =? 3))).
    assert (Hleap : Calendar.is_leap year = leapyear).
    { unfold leapyear.
      destruct (Calendar.is_leap year) eqn:El.
      - apply is_leap_spec in El. symmetry.
        rewrite andb_true_iff, orb_true_iff, negb_true_iff, !Z.eqb_eq, Z.eqb_neq.
        unfold year in El. euclid.
      - symmetry. apply not_true_is_false. intros Hc. 
        rewrite andb_true_iff, orb_true_iff, negb_true_iff, !Z.eqb_eq, Z.eqb_neq in Hc.
        assert (Hl : Calendar.is_leap year = true) by (apply is_leap_spec; unfold year; euclid).
        congruence. }
    assert (Hdby : Calendar.days_before_year year = n - r1)
      by (unfold Calendar.days_before_year, year; euclid).
    rewrite Z.shiftr_div_pow2 by lia. change (2 ^ 5) with 32.
    set (month := (r1 + 50) / 32).
    assert (Hm : 32 * month - 50 <= r1 < 32 * month - 18 /\ 1 <= month <= 12)
      by (unfold month; euclid).
    clearbody month leapyear.
    destruct Hm as [Hr Hm]. apply month_cases in Hm.
    repeat (destruct Hm as [-> | Hm]); try subst month;
      destruct leapyear; calendar_consts;
      match goal with |- context [?a <? ?b] => destruct (a <? b) eqn:Elt end;
      cbv beta iota;
      unfold Calendar.day_number, Calendar.ymd2ord, Calendar.days_before_month, Calendar.days_in_month, Calendar.EPOCH_ORDINAL;
      rewrite Hleap, Hdby; calendar_consts;
      (apply Z.ltb_lt in Elt || apply Z.ltb_ge in Elt); lia.
Qed.

(** *** Weekly buckets *)

Lemma week_start_is_monday (d : Z) :
  monday_on_or_before d (Week.start_time (Week.to_period d)).
Proof.
  unfold monday_on_or_before, Week.start_time, Week.to_period,
    Calendar.weekday, Calendar.EPOCH_ORDINAL.
  pose proof (Z.div_mod (d + 3) 7 ltac:(lia)) as Hd.
  pose proof (Z.mod_pos_bound (d + 3) 7 ltac:(lia)) as Hb.
  split; [|lia].
  replace (((d + 3) / 7 + 1) * 7 - 4 - 6 + 719163 + 6)
    with (0 + ((d + 3) / 7 + 102738) * 7) by lia.
  rewrite Z.mod_add by lia. reflexivity.
Qed.

Lemma monday_unique (d m1 m2 : Z) :
  monday_on_or_before d m1 -> monday_on_or_before d m2 -> m1 = m2.
Proof.
  unfold monday_on_or_before, Calendar.weekday, Calendar.EPOCH_ORDINAL.
  intros [H1 B1] [H2 B2].
  pose proof (Z.div_mod (m1 + 719163 + 6) 7 ltac:(lia)) as D1.
  pose proof (Z.div_mod (m2 + 719163 + 6) 7 ltac:(lia)) as D2.
  rewrite H1 in D1. rewrite H2 in D2. lia.
Qed.

Lemma in_week_In (m : Z) (df : DataFrame) (r : MatchRecord) :
  In r (in_week m df) <-> In r df /\ Week_of r = m.
Proof. unfold in_week. rewrite filter_In, Z.eqb_eq. tauto. Qed.

(** C10: the week of a record is the Monday on or before its local date,
    the only such day; two records share a bucket exactly when they share
    that Monday; each row of the weekly table is keyed by such a Monday,
    labelled with the year, month and day of that Monday, and computed
    from the records of the seven days from it. *)
Theorem weekly_bucket_monday_start :
  (forall r, monday_on_or_before (DateOnly r) (Week_of r)) /\
  (forall r m, monday_on_or_before (DateOnly r) m -> Week_of r = m) /\
  (forall r1 r2,
      Week_of r1 = Week_of r2 <->
      exists m, monday_on_or_before (DateOnly r1) m /\
                monday_on_or_before (DateOnly r2) m) /\
  (forall df is_960,
      Forall (fun row =>
                Calendar.weekday (week row) = 0 /\
                (exists y m dd,
                    Calendar.day_number y m dd = week row /\
                    1 <= m <= 12 /\ 1 <= dd <= Calendar.days_in_month y m /\
                    Week_label row
                      = (Week.digits 4 y ++ "-" ++ Week.digits 2 m ++ "-"
                         ++ Week.digits 2 dd)%string) /\
                (exists r, In r df /\ Week_of r = week row) /\
                (forall r, In r (in_week (week row) df) <->
                           In r df /\ week row <= DateOnly r < week row + 7) /\
                cells row = map (fun mode =>
                                   (mode, weekly_cell (in_week (week row) df) mode))
                                (mode_list is_960))
             (weekly_stats df is_960)) /\
  Week.strftime (Week_of (Samples.record Samples.noon_nov_5 1500 "Blitz" Win false))
    = "2025-11-03".
Proof.
  assert (Hmon : forall r, monday_on_or_before (DateOnly r) (Week_of r))
    by (intros r; apply week_start_is_monday).
  assert (Huniq : forall r m, monday_on_or_before (DateOnly r) m -> Week_of r = m)
    by (intros r m H; eapply monday_unique; [apply Hmon | exact H]).
  split; [exact Hmon|]. split; [exact Huniq|]. split; [|split].
  - intros r1 r2. split.
    + intros E. exists (Week_of r1). split; [apply Hmon|]. rewrite E. apply Hmon.
    + intros [m [H1 H2]]. rewrite (Huniq r1 m H1), (Huniq r2 m H2). reflexivity.
  - intros df is_960. unfold weekly_stats. apply Forall_forall.
    intros row Hrow. apply in_map_iff in Hrow. destruct Hrow as [wk [<- Hwk]].
    simpl. unfold Pandas.sorted_reverse in Hwk.
    apply in_rev in Hwk. apply sort_In in Hwk. apply in_rev in Hwk.
    apply unique_In in Hwk; [|exact Z.eqb_eq].
    apply in_map_iff in Hwk. destruct Hwk as [r0 [E0 Hr0]].
    assert (Hwd : Calendar.weekday wk = 0) by (rewrite <- E0; apply Hmon).
    split; [exact Hwd|]. split.
    { pose proof (ord2ymd_roundtrip wk) as Hrt. unfold Week.strftime.
      destruct (Calendar.ord2ymd wk) as [[y m] dd].
      destruct Hrt as [Hday [Hm Hdd]]. exists y, m, dd. auto. }
    split; [exists r0; auto|]. split; [|reflexivity].
    intros r. rewrite in_week_In. split; intros [Hin H]; split; try assumption.
    + rewrite <- H. apply Hmon.
    + apply Huniq. split; assumption.
  - vm_compute. reflexivity.
Qed.

(** The bucket of a record of Wednesday 2025-11-05 is Monday 2025-11-03,
    day 20395. *)
Lemma weekly_bucket_monday_start_witness :
  let r := Samples.record Samples.noon_nov_5 1500 "Blitz" Win false in
  monday_on_or_before (DateOnly r) 20395 /\ Week_of r = 20395.
Proof.
  intros r.
  assert (H : monday_on_or_before (DateOnly r) 20395)
    by (split; vm_compute; [reflexivity | split; [discriminate | reflexivity]]).
  split; [exact H|].
  apply (proj1 (proj2 weekly_bucket_monday_start) r 20395). exact H.
Defined.

(** *** Weekly Aggregator *)

Lemma sorted_snoc {A : Type} (R : A -> A -> Prop) (l : list A) (x : A) :
  StronglySorted R l -> Forall (fun a => R a x) l ->
  StronglySorted R (l ++ [x]).
Proof.
  induction 1 as [|y l Hs IH Hy]; intros Hx; simpl.
  - repeat constructor.
  - inversion Hx; subst. constructor; [now apply IH|].
    apply Forall_app. split; [assumption | now repeat constructor].
Qed.

Lemma sorted_rev {A : Type} (R : A -> A -> Prop) (l : list A) :
  StronglySorted R l -> StronglySorted (fun a b => R b a) (rev l).
Proof.
  induction 1 as [|y l Hs IH Hy]; simpl; [constructor|].
  apply sorted_snoc; [exact IH|].
  apply Forall_forall. intros a Ha. apply in_rev in Ha.
  rewrite Forall_forall in Hy. now apply Hy.
Qed.

(** The distinct values of a column, latest first. *)
Lemma sorted_reverse_unique_descending (l : list Z) :
  StronglySorted Z.gt (Pandas.sorted_reverse (Pandas.unique Z.eqb l)).
Proof.
  unfold Pandas.sorted_reverse.
  assert (H : StronglySorted Z.lt
                (Pandas.sort Z.leb (rev (Pandas.unique Z.eqb l)))).
  { apply sorted_NoDup_lt.
    - apply sort_sorted; [exact Zleb_total | exact Zleb_trans].
    - eapply Permutation_NoDup.
      + apply Permutation_sym, sort_perm.
      + eapply Permutation_NoDup; [apply Permutation_rev|].
        apply unique_NoDup, Z.eqb_eq. }
  apply sorted_rev in H.
  eapply StronglySorted_ind with (P := StronglySorted Z.gt) in H;
    [exact H | constructor |].
  intros a l' _ IH Ha. constructor; [exact IH|].
  eapply Forall_impl; [|exact Ha]. intros b Hb. simpl in Hb. lia.
Qed.

Lemma sorted_reverse_unique_In (l : list Z) (a : Z) :
  In a (Pandas.sorted_reverse (Pandas.unique Z.eqb l)) <-> In a l.
Proof.
  unfold Pandas.sorted_reverse.
  rewrite <- in_rev, sort_In, <- in_rev. apply unique_In, Z.eqb_eq.
Qed.

Lemma sorted_reverse_unique_NoDup (l : list Z) :
  NoDup (Pandas.sorted_reverse (Pandas.unique Z.eqb l)).
Proof.
  pose proof (sorted_reverse_unique_descending l) as H.
  induction H as [|a l' _ IH Ha]; constructor; [|exact IH].
  intros Hin. rewrite Forall_forall in Ha. specialize (Ha a Hin). lia.
Qed.

(** One key of a duplicate-free list matches a given value. *)
Lemma sum_indicator (ks : list Z) (k : Z) :
  NoDup ks -> In k ks ->
  Pandas.sum (map (fun k' => if k =? k' then 1 else 0) ks) = 1.
Proof.
  induction 1 as [|k0 ks Hnin Hnd IH]; simpl; [contradiction|].
  intros [-> | Hin].
  - rewrite Z.eqb_refl.
    assert (E : Pandas.sum (map (fun k' => if k =? k' then 1 else 0) ks) = 0).
    { clear IH Hnd. induction ks as [|k1 ks IH]; simpl; [reflexivity|].
      destruct (k =? k1) eqn:E1.
      - apply Z.eqb_eq in E1. subst. exfalso. apply Hnin. now left.
      - rewrite IH; [reflexivity|]. intros H. apply Hnin. now right. }
    unfold Pandas.sum in *. lia.
  - destruct (k =? k0) eqn:E1.
    + apply Z.eqb_eq in E1. subst. contradiction.
    + specialize (IH Hin). unfold Pandas.sum in *. lia.
Qed.

Lemma sum_map_add {A : Type} (f g : A -> Z) (l : list A) :
  Pandas.sum (map (fun a => f a + g a) l)
    = Pandas.sum (map f l) + Pandas.sum (map g l).
Proof.
  unfold Pandas.sum. induction l as [|a l IH]; simpl; lia.
Qed.

(** Grouping a frame by a key loses no row and counts none twice. *)
Lemma groups_partition {A : Type} (key : A -> Z) (ks : list Z) (l : list A) :
  NoDup ks -> (forall a, In a l -> In (key a) ks) ->
  Pandas.sum (map (fun k => Pandas.len (filter (fun a => key a =? k) l)) ks)
    = Pandas.len l.
Proof.
  intros Hnd. induction l as [|x l IH]; intros Hin.
  - clear. simpl. unfold Pandas.len, Pandas.sum. simpl.
    induction ks as [|k ks IHk]; simpl; [reflexivity | exact IHk].
  - rewrite (map_ext _ (fun k => (if key x =? k then 1 else 0)
                                 + Pandas.len (filter (fun a => key a =? k) l))).
    + rewrite sum_map_add, IH by (intros a Ha; apply Hin; now right).
      rewrite sum_indicator; [|exact Hnd | apply Hin; now left].
      unfold Pandas.len. simpl List.length. lia.
    + intros k. simpl. destruct (key x =? k); unfold Pandas.len;
        simpl List.length; lia.
Qed.

Lemma lookup_cell_map (f : string -> Cell) (modes : list string) (mode : string) :
  In mode modes ->
  lookup_cell mode (map (fun m => (m, f m)) modes) = Some (f mode).
Proof.
  induction modes as [|m modes IH]; simpl; [contradiction|].
  intros H. destruct (String.eqb m mode) eqn:E.
  - apply String.eqb_eq in E. now subst.
  - destruct H as [-> | H]; [|now apply IH].
    now rewrite String.eqb_refl in E.
Qed.

Lemma weekly_cell_games (week_data : DataFrame) (mode : string) :
  cell_games (weekly_cell week_data mode)
    = Pandas.len (filter_mode mode week_data) /\
  (weekly_cell week_data mode = NoData <->
   Pandas.len (filter_mode mode week_data) = 0).
Proof.
  unfold weekly_cell.
  destruct (0 <? Pandas.len (filter_mode mode week_data)) eqn:E.
  - apply Z.ltb_lt in E. simpl. split; [reflexivity|].
    split; [discriminate | lia].
  - apply Z.ltb_ge in E. simpl.
    assert (0 <= Pandas.len (filter_mode mode week_data))
      by (unfold Pandas.len; lia).
    split; [lia|]. split; [lia | reflexivity].
Qed.

Lemma weekly_rows_stats (df : DataFrame) (is_960 : bool) :
  weekly_rows df is_960 = weekly_stats (filter_variant df is_960) is_960.
Proof.
  unfold weekly_rows, create_weekly_stats_table.
  destruct (filter_variant df is_960); reflexivity.
Qed.

Lemma filter_mode_in_week (mode : string) (m : Z) (df : DataFrame) :
  filter_mode mode (in_week m df)
    = filter (fun r => Week_of r =? m) (filter_mode mode df).
Proof.
  unfold filter_mode, in_week.
  induction df as [|r df IH]; simpl; [reflexivity|].
  destruct (Week_of r =? m) eqn:E1, (String.eqb (Mode r) mode) eqn:E2; simpl;
    rewrite ?E1, ?E2, IH; reflexivity.
Qed.

(** C7: for each mode of the table and each variant value, the game counts
    of that mode summed over the emitted weeks give the number of
    variant-filtered records of the mode; the weeks come latest first; and
    every emitted row has an entry for each of the four modes, which is the
    dash exactly when the week has no game of that mode. *)
Theorem weekly_counts_partition (df : DataFrame) (is_960 : bool) :
  (forall mode, In mode (mode_list is_960) ->
     Pandas.sum (map (row_games mode) (weekly_rows df is_960))
       = Pandas.len (filter_mode mode (filter_variant df is_960))) /\
  StronglySorted Z.gt (map week (weekly_rows df is_960)) /\
  Forall (fun row =>
            map fst (cells row) = mode_list is_960 /\
            forall mode, In mode (mode_list is_960) ->
              exists c,
                lookup_cell mode (cells row) = Some c /\
                cell_games c
                  = Pandas.len (filter_mode mode
                                  (in_week (week row) (filter_variant df is_960))) /\
                (c = NoData <-> cell_games c = 0))
         (weekly_rows df is_960).
Proof.
  rewrite weekly_rows_stats.
  set (fdf := filter_variant df is_960).
  split; [|split].
  - intros mode Hmode. unfold weekly_stats. rewrite map_map.
    rewrite (map_ext _ (fun wk => Pandas.len
                          (filter (fun r => Week_of r =? wk)
                                  (filter_mode mode fdf)))).
    + apply groups_partition; [apply sorted_reverse_unique_NoDup|].
      intros r Hr. apply sorted_reverse_unique_In. apply in_map.
      unfold filter_mode in Hr. apply filter_In in Hr. tauto.
    + intros wk. unfold row_games. simpl.
      rewrite lookup_cell_map by exact Hmode.
      rewrite (proj1 (weekly_cell_games _ _)).
      fold (in_week wk fdf). now rewrite filter_mode_in_week.
  - unfold weekly_stats. rewrite map_map. simpl. rewrite map_id.
    apply sorted_reverse_unique_descending.
  - unfold weekly_stats. apply Forall_forall. intros row Hrow.
    apply in_map_iff in Hrow. destruct Hrow as [wk [<- _]]. simpl.
    split; [rewrite map_map; simpl; apply map_id|].
    intros mode Hmode. fold (in_week wk fdf).
    exists (weekly_cell (in_week wk fdf) mode).
    split; [now apply lookup_cell_map|].
    destruct (weekly_cell_games (in_week wk fdf) mode) as [Hg Hn].
    split; [exact Hg|]. rewrite Hg. exact Hn.
Qed.

(** The statement on the three sample games: one week, two Blitz games,
    one Bullet game, dashes for Rapid and Daily. *)
Lemma weekly_counts_partition_witness :
  In "Blitz" (mode_list false) /\
  Pandas.sum (map (row_games "Blitz") (weekly_rows Samples.three_games false))
    = Pandas.len (filter_mode "Blitz" (filter_variant Samples.three_games false)) /\
  map (fun row => map (fun e => (fst e, cell_games (snd e))) (cells row))
      (weekly_rows Samples.three_games false)
    = [[("Blitz", 2); ("Bullet", 1); ("Rapid", 0); ("Daily", 0)]].
Proof.
  assert (H : In "Blitz" (mode_list false)) by (left; reflexivity).
  split; [exact H|]. split; [|vm_compute; reflexivity].
  apply (proj1 (weekly_counts_partition Samples.three_games false) "Blitz" H).
Defined.

(** *** The records of a mode and variant *)

Lemma records_of_filter (mode : string) (is_960 : bool) (df : DataFrame) :
  records_of mode is_960 df = filter_mode mode (filter_variant df is_960).
Proof.
  unfold records_of, filter_mode, filter_variant.
  induction df as [|r df IH]; simpl; [reflexivity|].
  destruct (bool_dec (Is960 r) is_960) as [Ev | Ev].
  - rewrite Ev, Bool.eqb_reflx. simpl.
    destruct (string_dec (Mode r) mode) as [Em | Em].
    + rewrite Em, String.eqb_refl. now rewrite IH.
    + apply String.eqb_neq in Em. rewrite Em. exact IH.
  - apply Bool.eqb_false_iff in Ev. rewrite Ev.
    destruct (string_dec (Mode r) mode); exact IH.
Qed.

Lemma is_win_spec (r : MatchRecord) : is_win r = true <-> Status r = Win.
Proof. unfold is_win. destruct (Status r); simpl; split; congruence. Qed.

Lemma wins_among_count (l : DataFrame) :
  wins_among l = Pandas.count is_win l.
Proof.
  unfold wins_among, Pandas.count, Pandas.len. f_equal.
  induction l as [|r l IH]; simpl; [reflexivity|].
  destruct (Outcome_eq_dec (Status r) Win) as [E | E].
  - apply is_win_spec in E. rewrite E. simpl. now rewrite IH.
  - destruct (is_win r) eqn:Ew; [apply is_win_spec in Ew; contradiction|].
    exact IH.
Qed.

Lemma records_of_In (mode : string) (is_960 : bool) (df : DataFrame)
    (r : MatchRecord) :
  In r (records_of mode is_960 df) <->
  In r df /\ Is960 r = is_960 /\ Mode r = mode.
Proof.
  unfold records_of. rewrite filter_In.
  destruct (string_dec (Mode r) mode), (bool_dec (Is960 r) is_960);
    intuition congruence.
Qed.

Lemma records_of_some (mode : string) (is_960 : bool) (df : DataFrame) :
  0 < Pandas.len (filter_mode mode (filter_variant df is_960)) <->
  exists r, In r df /\ Is960 r = is_960 /\ Mode r = mode.
Proof.
  rewrite <- records_of_filter. split.
  - destruct (records_of mode is_960 df) as [|r l] eqn:E;
      [unfold Pandas.len; simpl; lia|].
    intros _. exists r. apply records_of_In. rewrite E. now left.
  - intros [r Hr]. apply records_of_In in Hr.
    destruct (records_of mode is_960 df); [contradiction|].
    unfold Pandas.len. simpl List.length. lia.
Qed.

(** *** Distribution Summarizer *)

Lemma box_traces_In (filtered_df : DataFrame) (is_960 : bool)
    (modes : list string) (b : Box) :
  In b (box_traces filtered_df is_960 modes) <->
  exists m, In m modes /\ 0 < Pandas.len (filter_mode m filtered_df) /\
            b = box_of filtered_df is_960 m.
Proof.
  induction modes as [|m0 modes IH]; simpl.
  - split; [contradiction | intros [m [[] _]]].
  - destruct (0 <? Pandas.len (filter_mode m0 filtered_df)) eqn:E.
    + apply Z.ltb_lt in E. simpl. rewrite IH. split.
      * intros [<- | [m [Hm H]]]; [exists m0 | exists m]; auto.
      * intros [m [[<- | Hm] [Hl Hb]]]; [left; now subst | right; exists m; auto].
    + apply Z.ltb_ge in E. rewrite IH. split.
      * intros [m [Hm H]]. exists m; auto.
      * intros [m [[<- | Hm] [Hl Hb]]]; [lia | exists m; auto].
Qed.

Lemma boxes_traces (df : DataFrame) (is_960 : bool) :
  boxes df is_960
    = box_traces (filter_variant df is_960) is_960 (boxplot_mode_list is_960).
Proof.
  unfold boxes, create_rating_boxplot.
  destruct (filter_variant df is_960); [|reflexivity].
  destruct is_960; reflexivity.
Qed.

Lemma display_name_injective (is_960 : bool) (m1 m2 : string) :
  In m1 (boxplot_mode_list is_960) -> In m2 (boxplot_mode_list is_960) ->
  display_name is_960 m1 = display_name is_960 m2 -> m1 = m2.
Proof.
  destruct is_960; simpl; intros H1 H2;
    repeat (destruct H1 as [<- | H1]; [|]); try contradiction;
    repeat (destruct H2 as [<- | H2]; [|]); try contradiction;
    vm_compute; intros E; try reflexivity; discriminate E.
Qed.

Lemma mode_lists_agree (is_960 : bool) (mode : string) :
  In mode (boxplot_mode_list is_960) <-> In mode (mode_list is_960).
Proof. destruct is_960; simpl; tauto. Qed.

(** C8: for one variant value, a mode of the box plot appears in the output
    exactly when the collection holds a record of that variant and mode,
    and its trace then carries the ratings of all these records; a mode
    without such a record is left out, whereas every row of the weekly
    table still has the dash under it. *)
Theorem boxplot_modes_with_records (df : DataFrame) (is_960 : bool)
    (mode : string) :
  In mode (boxplot_mode_list is_960) ->
  (appears is_960 mode (boxes df is_960) = true <->
   exists r, In r df /\ Is960 r = is_960 /\ Mode r = mode) /\
  ((exists r, In r df /\ Is960 r = is_960 /\ Mode r = mode) ->
   exists b, In b (boxes df is_960) /\
             name b = display_name is_960 mode /\
             y b = map Rating (records_of mode is_960 df) /\
             y b <> []) /\
  ((forall r, In r df -> Is960 r = is_960 -> Mode r <> mode) ->
   appears is_960 mode (boxes df is_960) = false /\
   Forall (fun row => lookup_cell mode (cells row) = Some NoData)
          (weekly_rows df is_960)).
Proof.
  intros Hmode. rewrite boxes_traces, records_of_filter.
  rewrite <- (records_of_some mode is_960 df).
  set (fdf := filter_variant df is_960).
  assert (Happ : appears is_960 mode
                   (box_traces fdf is_960 (boxplot_mode_list is_960)) = true <->
                 0 < Pandas.len (filter_mode mode fdf)).
  { unfold appears. rewrite existsb_exists. split.
    - intros [b [Hb Hn]]. apply String.eqb_eq in Hn.
      apply box_traces_In in Hb. destruct Hb as [m [Hm [Hl ->]]].
      simpl in Hn. apply display_name_injective in Hn; try assumption.
      now subst.
    - intros Hl. exists (box_of fdf is_960 mode). split.
      + apply box_traces_In. exists mode. auto.
      + apply String.eqb_refl. }
  split; [exact Happ|]. split.
  - intros Hl. exists (box_of fdf is_960 mode).
    split; [|split; [reflexivity | split; [reflexivity|]]].
    + apply box_traces_In. exists mode. auto.
    + simpl. destruct (filter_mode mode fdf);
        [unfold Pandas.len in Hl; simpl in Hl; lia | discriminate].
  - intros Hnone.
    assert (Hz : Pandas.len (filter_mode mode fdf) = 0).
    { assert (Hge : 0 <= Pandas.len (filter_mode mode fdf))
        by (unfold Pandas.len; lia).
      destruct (Z_le_lt_eq_dec _ _ Hge) as [Hpos | Heq]; [|now symmetry].
      apply (records_of_some mode is_960 df) in Hpos.
      destruct Hpos as [r [Hr [Hv Hm]]]. exfalso. now apply (Hnone r). }
    split.
    + apply Bool.not_true_is_false. intros E. apply Happ in E. lia.
    + rewrite weekly_rows_stats. fold fdf. unfold weekly_stats.
      apply Forall_forall. intros row Hrow. apply in_map_iff in Hrow.
      destruct Hrow as [wk [<- _]]. simpl.
      rewrite lookup_cell_map by now apply mode_lists_agree.
      f_equal. apply weekly_cell_games. fold (in_week wk fdf).
      rewrite filter_mode_in_week.
      assert (Hnil : filter_mode mode fdf = []).
      { destruct (filter_mode mode fdf); [reflexivity|].
        unfold Pandas.len in Hz. simpl in Hz. lia. }
      rewrite Hnil. reflexivity.
Qed.

(** The statement on the three sample games: Blitz, with two records,
    appears with a box holding both ratings, and Bullet with its one;
    Rapid has no record, no box, and a dash in the one weekly row. *)
Lemma boxplot_modes_with_records_witness :
  let df := Samples.three_games in
  In "Blitz" (boxplot_mode_list false) /\
  In "Rapid" (boxplot_mode_list false) /\
  (exists r, In r df /\ Is960 r = false /\ Mode r = "Blitz") /\
  (forall r, In r df -> Is960 r = false -> Mode r <> "Rapid") /\
  appears false "Blitz" (boxes df false) = true /\
  (exists b, In b (boxes df false) /\ name b = "Blitz" /\ y b = [1500; 1508]) /\
  map (fun b => (name b, y b)) (boxes df false)
    = [("Blitz", [1500; 1508]); ("Bullet", [1391])] /\
  appears false "Rapid" (boxes df false) = false /\
  Forall (fun row => lookup_cell "Rapid" (cells row) = Some NoData)
         (weekly_rows df false) /\
  List.length (weekly_rows df false) = 1%nat /\
  map (fun b => (name b, y b))
      (boxes [Samples.record Samples.noon_nov_5 1510 "Blitz960" Win true] true)
    = [("Blitz 960", [1510])].
Proof.
  intros df.
  assert (Hb : In "Blitz" (boxplot_mode_list false)) by (simpl; auto).
  assert (Hr : In "Rapid" (boxplot_mode_list false)) by (simpl; auto).
  assert (Hsome : exists r, In r df /\ Is960 r = false /\ Mode r = "Blitz")
    by (exists (Samples.record Samples.noon_nov_5 1500 "Blitz" Win false);
        repeat split; left; reflexivity).
  assert (Hnone : forall r, In r df -> Is960 r = false -> Mode r <> "Rapid").
  { intros r Hin _. simpl in Hin.
    destruct Hin as [<- | [<- | [<- | []]]]; discriminate. }
  destruct (boxplot_modes_with_records df false "Blitz" Hb)
    as [Happ [Hbox _]].
  destruct (boxplot_modes_with_records df false "Rapid" Hr)
    as [_ [_ Hout]].
  split; [exact Hb|]. split; [exact Hr|]. split; [exact Hsome|].
  split; [exact Hnone|]. split; [apply Happ; exact Hsome|].
  split.
  { destruct (Hbox Hsome) as [b [Hin [Hname [Hy _]]]].
    exists b. split; [exact Hin|]. split; [exact Hname|].
    rewrite Hy. vm_compute. reflexivity. }
  split; [vm_compute; reflexivity|].
  destruct (Hout Hnone) as [H1 H2].
  split; [exact H1|]. split; [exact H2|].
  split; vm_compute; reflexivity.
Defined.

(** *** Interval Milestone Calculator *)

Lemma compare_refl (s : string) : String.compare s s = Eq.
Proof. now apply String_as_OT.cmp_eq. Qed.

Lemma compare_lt_trans (a b c : string) :
  String.compare a b = Lt -> String.compare b c = Lt -> String.compare a c = Lt.
Proof.
  intros H1 H2. apply String_as_OT.cmp_lt.
  eapply String_as_OT.lt_trans; apply String_as_OT.cmp_lt; eassumption.
Qed.

Lemma Mode_Date_leb_total (a b : MatchRecord) :
  Mode_Date_leb a b = false -> Mode_Date_leb b a = true.
Proof.
  unfold Mode_Date_leb. rewrite (String.compare_antisym (Mode b) (Mode a)).
  destruct (String.compare (Mode a) (Mode b)); simpl;
    [apply Zleb_total | discriminate | reflexivity].
Qed.

Lemma Mode_Date_leb_trans (a b c : MatchRecord) :
  Mode_Date_leb a b = true -> Mode_Date_leb b c = true ->
  Mode_Date_leb a c = true.
Proof.
  unfold Mode_Date_leb.
  destruct (String.compare (Mode a) (Mode b)) eqn:Eab; [| |discriminate];
    destruct (String.compare (Mode b) (Mode c)) eqn:Ebc; try discriminate.
  - apply String_as_OT.cmp_eq in Eab, Ebc. rewrite Eab, Ebc, compare_refl.
    apply Zleb_trans.
  - apply String_as_OT.cmp_eq in Eab. rewrite Eab, Ebc. reflexivity.
  - apply String_as_OT.cmp_eq in Ebc. rewrite <- Ebc, Eab. reflexivity.
  - rewrite (compare_lt_trans _ _ _ Eab Ebc). reflexivity.
Qed.

(** The rows of a mode in the frame sorted by mode and date are the rows
    of that mode sorted by date. *)
Lemma filter_mode_sorted (mode : string) (df : DataFrame) :
  filter_mode mode (Pandas.sort Mode_Date_leb df) = by_timestamp mode df.
Proof.
  unfold by_timestamp, filter_mode.
  rewrite filter_sort by (apply Mode_Date_leb_total || apply Mode_Date_leb_trans).
  apply sort_ext. intros a b Ha Hb.
  apply filter_In in Ha, Hb. destruct Ha as [_ Ha], Hb as [_ Hb].
  apply String.eqb_eq in Ha, Hb.
  unfold Mode_Date_leb, Date_leb. rewrite Ha, Hb, compare_refl. reflexivity.
Qed.

Lemma len_nonneg {A : Type} (l : list A) : 0 <= Pandas.len l.
Proof. unfold Pandas.len. lia. Qed.

Lemma range_checkpoints (interval n : Z) :
  0 < interval ->
  Pandas.range interval (n + 1) interval = checkpoints interval n.
Proof.
  intros Hn. unfold Pandas.range, checkpoints.
  destruct (0 <? interval) eqn:E; [|apply Z.ltb_ge in E; lia].
  replace (n + 1 - interval + interval - 1) with n by lia.
  rewrite <- seq_shift, map_map. apply map_ext. intros k. lia.
Qed.

Lemma checkpoints_In (interval n c : Z) :
  0 < interval ->
  (In c (checkpoints interval n) <->
   exists k, 1 <= k /\ c = k * interval /\ c <= n).
Proof.
  intros Hn. unfold checkpoints. rewrite in_map_iff.
  pose proof (Z.div_mod n interval ltac:(lia)) as Hd.
  pose proof (Z.mod_pos_bound n interval Hn) as Hb.
  split.
  - intros [k [<- Hk]]. apply in_seq in Hk.
    exists (Z.of_nat k). split; [lia|]. split; [reflexivity|].
    assert (Z.of_nat k <= n / interval) by lia. nia.
  - intros [k [Hk [-> Hle]]]. exists (Z.to_nat k).
    split; [rewrite Z2Nat.id by lia; reflexivity|].
    apply in_seq. assert (k <= n / interval) by nia. lia.
Qed.

Lemma checkpoints_increasing (interval n : Z) :
  0 < interval -> StronglySorted Z.lt (checkpoints interval n).
Proof.
  intros Hn. unfold checkpoints.
  generalize (Z.to_nat (n / interval)) as len. generalize 1%nat as start.
  intros start len. revert start.
  induction len as [|len IH]; intros start; simpl; constructor.
  - apply IH.
  - apply Forall_forall. intros c Hc. apply in_map_iff in Hc.
    destruct Hc as [k [<- Hk]]. apply in_seq in Hk. nia.
Qed.

Lemma checkpoints_none (interval n : Z) :
  0 < interval -> n < interval -> checkpoints interval n = [].
Proof.
  intros Hn Hlt. destruct (checkpoints interval n) as [|c l] eqn:E;
    [reflexivity|].
  assert (Hc : In c (checkpoints interval n)) by (rewrite E; now left).
  apply checkpoints_In in Hc; [|exact Hn].
  destruct Hc as [k [Hk [-> Hle]]]. nia.
Qed.

(** Rounding to the nearest integer: the result is within one half of the
    quotient. *)
Lemma round_half_even_nearest (num den : Z) :
  0 < den ->
  2 * Z.abs (den * Pandas.round_half_even num den - num) <= den.
Proof.
  intros Hd. unfold Pandas.round_half_even.
  pose proof (Z.div_mod num den ltac:(lia)) as Hdm.
  pose proof (Z.mod_pos_bound num den Hd) as Hb.
  destruct (2 * (num mod den) <? den) eqn:E1.
  - apply Z.ltb_lt in E1. lia.
  - apply Z.ltb_ge in E1.
    destruct (den <? 2 * (num mod den)) eqn:E2.
    + apply Z.ltb_lt in E2. lia.
    + apply Z.ltb_ge in E2. destruct (Z.even (num / den)); lia.
Qed.

Lemma count_cons {A : Type} (p : A -> bool) (x : A) (l : list A) :
  Pandas.count p (x :: l) = (if p x then 1 else 0) + Pandas.count p l.
Proof.
  unfold Pandas.count, Pandas.len. simpl.
  destruct (p x); simpl List.length; lia.
Qed.

Lemma count_nonneg {A : Type} (p : A -> bool) (l : list A) :
  0 <= Pandas.count p l.
Proof. apply len_nonneg. Qed.

Lemma count_Mode (k : string) (df : DataFrame) :
  Pandas.count (String.eqb k) (map Mode df) = Pandas.len (filter_mode k df).
Proof.
  unfold Pandas.count, filter_mode, Pandas.len. f_equal.
  induction df as [|r df IH]; simpl; [reflexivity|].
  rewrite (String.eqb_sym k (Mode r)).
  destruct (String.eqb (Mode r) k); simpl; now rewrite IH.
Qed.

(** Every rank below the size of a group is the running count of one of
    its rows. *)
Lemma cumcount_from_hits (keys seen : list string) (k : string) (j : Z) :
  Pandas.count (String.eqb k) seen <= j
    < Pandas.count (String.eqb k) seen + Pandas.count (String.eqb k) keys ->
  In j (Pandas.cumcount_from seen keys).
Proof.
  revert seen. induction keys as [|k0 keys IH]; intros seen Hj.
  - unfold Pandas.count at 3 in Hj. unfold Pandas.len in Hj. simpl in Hj. lia.
  - simpl. rewrite count_cons in Hj.
    destruct (String.eqb k k0) eqn:E.
    + apply String.eqb_eq in E. subst k0.
      destruct (Z.eq_dec j (Pandas.count (String.eqb k) seen)) as [-> | Hne];
        [now left | right].
      apply IH. rewrite count_cons, String.eqb_refl. lia.
    + right. apply IH. rewrite count_cons, E. lia.
Qed.

(** Every running count is a rank below the size of the row's group. *)
Lemma cumcount_from_bound (keys seen : list string) (j : Z) :
  In j (Pandas.cumcount_from seen keys) ->
  exists k, In k keys /\
    Pandas.count (String.eqb k) seen <= j
      < Pandas.count (String.eqb k) seen + Pandas.count (String.eqb k) keys.
Proof.
  revert seen. induction keys as [|k0 keys IH]; intros seen; simpl;
    [contradiction|].
  intros [<- | Hin].
  - exists k0. split; [now left|].
    rewrite count_cons, String.eqb_refl.
    pose proof (count_nonneg (String.eqb k0) keys). lia.
  - destruct (IH _ Hin) as [k [Hk Hj]]. exists k. split; [now right|].
    rewrite !count_cons in *.
    destruct (String.eqb k k0); lia.
Qed.

Lemma at_interval_multiple (interval c : Z) :
  0 < interval -> 0 < c -> at_interval interval c = true ->
  interval <= c /\ c mod interval = 0.
Proof.
  intros Hn Hc. unfold at_interval.
  destruct (interval =? 0) eqn:E; [discriminate|].
  rewrite Z.eqb_eq. intros Hm. split; [|exact Hm].
  pose proof (Z.div_mod c interval ltac:(lia)) as Hd. rewrite Hm in Hd.
  destruct (Z_lt_ge_dec (c / interval) 1) as [Hq | Hq]; nia.
Qed.

Lemma at_interval_self (interval : Z) :
  0 < interval -> at_interval interval interval = true.
Proof.
  intros Hn. unfold at_interval.
  destruct (interval =? 0) eqn:E; [apply Z.eqb_eq in E; lia|].
  rewrite Z.mod_same by lia. reflexivity.
Qed.

Lemma flat_map_nil {A B : Type} (f : A -> list B) (l : list A) :
  (forall a, In a l -> f a = []) -> flat_map f l = [].
Proof.
  induction l as [|a l IH]; simpl; intros H; [reflexivity|].
  rewrite (H a) by now left. apply IH. intros b Hb. apply H. now right.
Qed.

(** When no row of the sorted frame stands at a multiple of the interval,
    no mode reaches the interval and there are no milestones. *)
Lemma no_interval_no_stats (interval : Z) (sorted_df : DataFrame) :
  0 < interval ->
  filter (at_interval interval) (GameCount sorted_df) = [] ->
  interval_stats interval sorted_df = [].
Proof.
  intros Hn Hnil. unfold interval_stats. apply flat_map_nil. intros mode _.
  rewrite range_checkpoints by exact Hn.
  rewrite checkpoints_none; [reflexivity | exact Hn |].
  destruct (Z_lt_ge_dec (Pandas.len (filter_mode mode sorted_df)) interval)
    as [Hlt | Hge]; [exact Hlt | exfalso].
  assert (Hin : In interval (GameCount sorted_df)).
  { unfold GameCount. apply in_map_iff. exists (interval - 1).
    split; [lia|]. unfold Pandas.cumcount.
    apply cumcount_from_hits with (k := mode).
    rewrite count_Mode. unfold Pandas.count at 1 2, Pandas.len at 1 2. simpl. lia. }
  assert (Hf : In interval (filter (at_interval interval) (GameCount sorted_df)))
    by (apply filter_In; split; [exact Hin | now apply at_interval_self]).
  rewrite Hnil in Hf. contradiction.
Qed.

(** When some row stands at a multiple of the interval, its mode has a
    milestone. *)
Lemma interval_some_stats (interval : Z) (sorted_df : DataFrame) :
  0 < interval ->
  filter (at_interval interval) (GameCount sorted_df) <> [] ->
  interval_stats interval sorted_df <> [].
Proof.
  intros Hn Hne.
  destruct (filter (at_interval interval) (GameCount sorted_df))
    as [|c rest] eqn:E; [contradiction|].
  assert (Hc : In c (filter (at_interval interval) (GameCount sorted_df)))
    by (rewrite E; now left).
  apply filter_In in Hc. destruct Hc as [Hc Hat].
  unfold GameCount in Hc. apply in_map_iff in Hc. destruct Hc as [j [<- Hj]].
  apply cumcount_from_bound in Hj. destruct Hj as [k [Hk Hj]].
  rewrite count_Mode in Hj. unfold Pandas.count at 1 2, Pandas.len at 1 2 in Hj.
  simpl in Hj.
  apply at_interval_multiple in Hat; [|exact Hn | lia].
  assert (Hin : In (interval_stat k (filter_mode k sorted_df) interval)
                   (interval_stats interval sorted_df)).
  { unfold interval_stats. apply in_flat_map. exists k. split.
    - apply unique_In; [exact String.eqb_eq | exact Hk].
    - apply in_map. rewrite range_checkpoints by exact Hn.
      apply checkpoints_In; [exact Hn|]. exists 1. lia. }
  intros Hnil. rewrite Hnil in Hin. contradiction.
Qed.

Lemma emitted_milestones_stats (interval : Z) (df : DataFrame) (is_960 : bool) :
  0 < interval ->
  create_interval_table interval df is_960 <> None /\
  emitted_milestones interval df is_960
    = interval_stats interval
        (Pandas.sort Mode_Date_leb (filter_variant df is_960)).
Proof.
  intros Hn. unfold emitted_milestones, create_interval_table.
  destruct (filter_variant df is_960) as [|r0 fdf] eqn:Ef;
    [split; [discriminate | reflexivity]|].
  set (sdf := Pandas.sort Mode_Date_leb (r0 :: fdf)).
  destruct (filter (at_interval interval) (GameCount sdf)) as [|c rest] eqn:Ei.
  - split; [discriminate|]. symmetry. now apply no_interval_no_stats.
  - assert (Hne : interval_stats interval sdf <> [])
      by (apply interval_some_stats; [exact Hn | rewrite Ei; discriminate]).
    destruct (interval_stats interval sdf) as [|s stats];
      [contradiction | split; [discriminate | reflexivity]].
Qed.

Lemma filter_none {B : Type} (p : B -> bool) (l : list B) :
  (forall b, In b l -> p b = false) -> filter p l = [].
Proof.
  induction l as [|b l IH]; simpl; intros H; [reflexivity|].
  rewrite (H b) by now left. apply IH. intros b' Hb'. apply H. now right.
Qed.

Lemma filter_flat_map_other {A B : Type} (p : B -> bool) (f : A -> list B)
    (l : list A) :
  (forall a b, In a l -> In b (f a) -> p b = false) ->
  filter p (flat_map f l) = [].
Proof.
  intros H. induction l as [|a l IH]; simpl; [reflexivity|].
  rewrite filter_app, IH by (intros a' b Ha; apply H; now right).
  rewrite app_nil_r. apply filter_none. intros b. apply H. now left.
Qed.

Lemma filter_all {B : Type} (p : B -> bool) (l : list B) :
  (forall b, In b l -> p b = true) -> filter p l = l.
Proof.
  induction l as [|b l IH]; simpl; intros H; [reflexivity|].
  rewrite (H b) by now left. f_equal. apply IH. intros b' Hb'. apply H. now right.
Qed.

(** The milestones of one mode among those of all modes. *)
Lemma milestones_of_interval_stats (interval : Z) (sorted_df : DataFrame)
    (mode : string) :
  0 < interval ->
  milestones_of mode (interval_stats interval sorted_df)
    = map (interval_stat mode (filter_mode mode sorted_df))
          (checkpoints interval (Pandas.len (filter_mode mode sorted_df))).
Proof.
  intros Hn. unfold milestones_of, interval_stats.
  set (g := fun m => map (interval_stat m (filter_mode m sorted_df))
                         (Pandas.range interval
                            (Pandas.len (filter_mode m sorted_df) + 1) interval)).
  assert (Htag : forall m s, In s (g m) -> stat_Mode s = m).
  { intros m s Hs. unfold g in Hs. apply in_map_iff in Hs.
    destruct Hs as [c [<- _]]. reflexivity. }
  assert (Hg : g mode = map (interval_stat mode (filter_mode mode sorted_df))
                 (checkpoints interval (Pandas.len (filter_mode mode sorted_df))))
    by (unfold g; now rewrite range_checkpoints).
  pose proof (unique_NoDup String.eqb String.eqb_eq (map Mode sorted_df)) as Hnd.
  destruct (in_dec string_dec mode (map Mode sorted_df)) as [Hin | Hnin].
  - apply (unique_In String.eqb String.eqb_eq) in Hin.
    induction Hnd as [|m ms Hm Hnd IH]; [contradiction|].
    simpl. rewrite filter_app. destruct Hin as [-> | Hin].
    + rewrite filter_all, filter_flat_map_other, app_nil_r; [exact Hg | |].
      * intros a b Ha Hb. apply String.eqb_neq. rewrite (Htag a b Hb).
        intros ->. contradiction.
      * intros b Hb. apply String.eqb_eq. now apply Htag.
    + rewrite IH by exact Hin.
      rewrite filter_none; [reflexivity|].
      intros b Hb. apply String.eqb_neq. rewrite (Htag m b Hb).
      intros ->. contradiction.
  - rewrite filter_flat_map_other.
    + assert (Hnil : filter_mode mode sorted_df = []).
      { unfold filter_mode. destruct (filter _ sorted_df) as [|r l] eqn:E;
          [reflexivity|].
        assert (Hr : In r (filter (fun r => String.eqb (Mode r) mode) sorted_df))
          by (rewrite E; now left).
        apply filter_In in Hr. destruct Hr as [Hr Hm].
        apply String.eqb_eq in Hm. exfalso. apply Hnin. rewrite <- Hm.
        now apply in_map. }
      rewrite Hnil. rewrite checkpoints_none; [reflexivity | exact Hn |].
      unfold Pandas.len. simpl. exact Hn.
    + intros a b Ha Hb. apply String.eqb_neq. rewrite (Htag a b Hb).
      intros ->. apply Hnin.
      exact (proj1 (unique_In String.eqb String.eqb_eq _ _) Ha).
Qed.

Lemma sorted_weaken {A : Type} (R S : A -> A -> Prop) (l : list A) :
  (forall a b, R a b -> S a b) -> StronglySorted R l -> StronglySorted S l.
Proof.
  intros H. induction 1 as [|a l Hs IH Ha]; constructor; [exact IH|].
  eapply Forall_impl; [|exact Ha]. intros b. apply H.
Qed.

(** A mode's records in ascending order of timestamp. *)
Lemma by_timestamp_sorted (mode : string) (df : DataFrame) :
  Permutation (by_timestamp mode df) (filter_mode mode df) /\
  StronglySorted (fun a b => Date a <= Date b) (by_timestamp mode df).
Proof.
  unfold by_timestamp. split; [apply sort_perm|].
  apply sorted_weaken with (R := fun a b => Date_leb a b = true).
  - intros a b. unfold Date_leb. apply Z.leb_le.
  - apply sort_sorted; unfold Date_leb;
      [intros a b; apply Zleb_total | intros a b c; apply Zleb_trans].
Qed.

Lemma firstn_len {A : Type} (c : Z) (l : list A) :
  0 <= c <= Pandas.len l -> Pandas.len (firstn (Z.to_nat c) l) = c.
Proof.
  unfold Pandas.len. intros Hc. rewrite length_firstn. lia.
Qed.

Lemma interval_stat_correct (mode : string) (recs : DataFrame) (c : Z) :
  1 <= c <= Pandas.len recs ->
  let s := interval_stat mode recs c in
  let first := firstn (Z.to_nat c) recs in
  stat_Mode s = mode /\ Games_Played s = c /\ Pandas.len first = c /\
  2 * Z.abs (c * Average_Rating s - Pandas.sum (map Rating first)) <= c /\
  Win_pct s = (inject_Z (Pandas.count is_win first) / inject_Z c * 100)%Q.
Proof.
  intros Hc s first.
  assert (Hlen : Pandas.len first = c) by (apply firstn_len; lia).
  repeat split; try assumption.
  unfold s, interval_stat, Average_Rating, Pandas.mean_rounded. fold first.
  assert (Hl : Pandas.len (map Rating first) = c)
    by (unfold Pandas.len in *; now rewrite length_map).
  rewrite Hl. apply round_half_even_nearest. lia.
Qed.

Lemma pivot_lookup_map (f : string -> list (option (Z * Q)))
    (modes : list string) (mode : string) :
  In mode modes ->
  pivot_lookup mode (map (fun m => (m, f m)) modes) = Some (f mode).
Proof.
  induction modes as [|m modes IH]; simpl; [contradiction|].
  intros H. destruct (String.eqb m mode) eqn:E.
  - apply String.eqb_eq in E. now subst.
  - destruct H as [-> | H]; [|now apply IH].
    now rewrite String.eqb_refl in E.
Qed.

(** The first milestone of a mode with a given game count. *)
Lemma first_milestone_at (mode : string) (recs : DataFrame) (games : Z)
    (cps : list Z) :
  match filter (fun s => Games_Played s =? games)
               (map (interval_stat mode recs) cps) with
  | [] => None
  | s :: _ => Some (Average_Rating s, Win_pct s)
  end
  = if existsb (Z.eqb games) cps
    then Some (Average_Rating (interval_stat mode recs games),
               Win_pct (interval_stat mode recs games))
    else None.
Proof.
  induction cps as [|c cps IH]; simpl; [reflexivity|].
  rewrite (Z.eqb_sym games c).
  destruct (c =? games) eqn:E; simpl; [|exact IH].
  apply Z.eqb_eq in E. subst c. reflexivity.
Qed.

(** A column of the table, cell by cell. *)
Lemma pivot_column_cells (interval : Z) (interval_df : list IntervalStat)
    (games_col : list Z) (mode : string) (recs : DataFrame) :
  milestones_of mode interval_df
    = map (interval_stat mode recs) (checkpoints interval (Pandas.len recs)) ->
  pivot_column interval_df games_col mode
    = map (expected_cell interval mode recs) games_col.
Proof.
  intros Hm. unfold pivot_column. fold (milestones_of mode interval_df).
  rewrite Hm. unfold expected_cell.
  destruct (checkpoints interval (Pandas.len recs)) as [|c cps] eqn:E.
  - simpl. induction games_col as [|g games_col IH]; simpl;
      [reflexivity | now rewrite IH].
  - rewrite <- E.
    destruct (map (interval_stat mode recs)
                  (checkpoints interval (Pandas.len recs))) eqn:Em;
      [rewrite E in Em; discriminate|].
    rewrite <- Em. apply map_ext. intros games. apply first_milestone_at.
Qed.

(** The table of a call that answers with a figure. *)
Lemma create_interval_table_Figure (interval : Z) (df : DataFrame)
    (is_960 : bool) (t : IntervalTable) :
  create_interval_table interval df is_960 = Some (Figure t) ->
  milestones t = emitted_milestones interval df is_960 /\
  games_played t
    = Pandas.sorted (Pandas.unique Z.eqb (map Games_Played (milestones t))) /\
  pivot t = map (fun mode =>
                   (mode, pivot_column (milestones t) (games_played t) mode))
                (mode_list is_960).
Proof.
  intros H. unfold emitted_milestones. rewrite H.
  unfold create_interval_table in H.
  destruct (filter_variant df is_960) as [|r0 fdf]; [discriminate|].
  destruct (filter (at_interval interval) _) as [|c rest]; [discriminate|].
  destruct (interval_stats interval _) as [|s stats]; [discriminate|].
  injection H as <-. repeat split.
Qed.

(** C1: for a positive interval [N] and any mode, with the records of the
    mode and variant sorted ascending by timestamp, the call returns, and
    the milestones of the mode stand exactly at the checkpoints
    [N, 2N, 3N, ...] not exceeding the mode's game count, in increasing
    order; the milestone at checkpoint [c] reports the mean rating of the
    first [c] sorted records rounded to the nearest integer and the win
    percentage (number of records with outcome Win among the first [c])
    / c * 100; a mode with fewer than [N] games has no milestone, and 25
    records with [N = 10] give the checkpoints 10 and 20; in the returned
    table the column of the mode shows a milestone at these game counts
    and a dash at the others. *)
Theorem interval_milestones_at_checkpoints (N : Z) (df : DataFrame)
    (is_960 : bool) (mode : string) :
  0 < N ->
  let recs := Pandas.sort Date_leb (records_of mode is_960 df) in
  let n := Z.of_nat (List.length (records_of mode is_960 df)) in
  let emitted := milestones_of mode (emitted_milestones N df is_960) in
  create_interval_table N df is_960 <> None /\
  (Permutation recs (records_of mode is_960 df) /\
   StronglySorted (fun a b => Date a <= Date b) recs) /\
  map Games_Played emitted = checkpoints N n /\
  (forall c, In c (map Games_Played emitted) <->
             exists k, 1 <= k /\ c = k * N /\ c <= n) /\
  StronglySorted Z.lt (map Games_Played emitted) /\
  Forall (fun s =>
            let c := Games_Played s in
            let first := firstn (Z.to_nat c) recs in
            stat_Mode s = mode /\ Z.of_nat (List.length first) = c /\
            2 * Z.abs (c * Average_Rating s
                       - fold_right Z.add 0 (map Rating first)) <= c /\
            Win_pct s = (inject_Z (wins_among first) / inject_Z c * 100)%Q)
         emitted /\
  (n < N -> emitted = []) /\
  (N = 10 -> n = 25 -> map Games_Played emitted = [10; 20]) /\
  (forall t, create_interval_table N df is_960 = Some (Figure t) ->
     In mode (mode_list is_960) ->
     pivot_lookup mode (pivot t)
       = Some (map (expected_cell N mode recs) (games_played t))).
Proof.
  intros HN. cbv zeta. rewrite !records_of_filter.
  fold (by_timestamp mode (filter_variant df is_960)).
  change (Z.of_nat (List.length
            (filter_mode mode (filter_variant df is_960))))
    with (Pandas.len (filter_mode mode (filter_variant df is_960))).
  set (recs := by_timestamp mode (filter_variant df is_960)).
  set (n := Pandas.len (filter_mode mode (filter_variant df is_960))).
  set (emitted := milestones_of mode (emitted_milestones N df is_960)).
  destruct (emitted_milestones_stats N df is_960 HN) as [Htotal Hem].
  destruct (by_timestamp_sorted mode (filter_variant df is_960)) as [Hperm Hsort].
  assert (Hn : Pandas.len recs = n)
    by (unfold n, Pandas.len; f_equal; now apply Permutation_length).
  assert (Hmap : emitted = map (interval_stat mode recs) (checkpoints N n)).
  { unfold emitted. rewrite Hem, milestones_of_interval_stats by exact HN.
    rewrite filter_mode_sorted. fold recs. now rewrite Hn. }
  assert (Hgames : map Games_Played emitted = checkpoints N n).
  { rewrite Hmap, map_map. simpl. apply map_id. }
  split; [exact Htotal|]. split; [split; assumption|].
  split; [exact Hgames|]. rewrite Hgames.
  split; [intros c; now apply checkpoints_In|].
  split; [now apply checkpoints_increasing|].
  split; [|split; [|split]].
  - rewrite Hmap. apply Forall_forall. intros s Hs.
    apply in_map_iff in Hs. destruct Hs as [c [<- Hc]].
    apply checkpoints_In in Hc; [|exact HN].
    destruct Hc as [k [Hk [-> Hle]]].
    assert (Hrange : 1 <= k * N <= Pandas.len recs) by (rewrite Hn; nia).
    destruct (interval_stat_correct mode recs (k * N) Hrange)
      as [H1 [H2 [H3 [H4 H5]]]].
    rewrite H2, wins_among_count. repeat split; assumption.
  - intros Hlt. rewrite Hmap, checkpoints_none by assumption. reflexivity.
  - intros -> Hn25. rewrite Hn25. reflexivity.
  - intros t Ht Hmode.
    destruct (create_interval_table_Figure N df is_960 t Ht) as [Hms [_ Hp]].
    rewrite Hp, pivot_lookup_map by exact Hmode. f_equal.
    apply pivot_column_cells. rewrite Hms. fold emitted.
    rewrite Hmap, Hn. reflexivity.
Qed.

(** The statement on 25 blitz records with the interval 10: milestones at
    10 and 20 games, none at 25; 4 of the first 10 records and 7 of the
    first 20 are wins, so the milestones report 40 and 35 percent. *)
Lemma interval_milestones_at_checkpoints_witness :
  let df := Samples.blitz_records 25 in
  let recs := Pandas.sort Date_leb (records_of "Blitz" false df) in
  let emitted := milestones_of "Blitz" (emitted_milestones 10 df false) in
  0 < 10 /\
  Z.of_nat (List.length (records_of "Blitz" false df)) = 25 /\
  map Games_Played emitted = [10; 20] /\
  map Average_Rating emitted = [1504; 1510] /\
  map Win_pct emitted = [400 # 10; 700 # 20] /\
  wins_among (firstn 10 recs) = 4 /\ wins_among (firstn 20 recs) = 7 /\
  Forall (fun s =>
            Win_pct s
              = (inject_Z (wins_among (firstn (Z.to_nat (Games_Played s)) recs))
                 / inject_Z (Games_Played s) * 100)%Q)
         emitted.
Proof.
  intros df recs emitted.
  assert (H10 : 0 < 10) by lia.
  assert (H25 : Z.of_nat (List.length (records_of "Blitz" false df)) = 25)
    by (vm_compute; reflexivity).
  destruct (interval_milestones_at_checkpoints 10 df false "Blitz" H10)
    as [_ [_ [_ [_ [_ [Hall [_ [Hex _]]]]]]]].
  split; [exact H10|]. split; [exact H25|].
  split; [apply Hex; [reflexivity | exact H25]|].
  split; [vm_compute; reflexivity|]. split; [vm_compute; reflexivity|].
  split; [vm_compute; reflexivity|]. split; [vm_compute; reflexivity|].
  eapply Forall_impl; [|exact Hall]. intros s Hs. cbv zeta in Hs. apply Hs.
Defined.

(** ** Further properties of the code *)

(** *** Requests and failures of [process_all_modes] *)

Lemma select_archives_None (sy sm : Z) (urls : list string) :
  select_archives sy sm urls = None <->
  exists url, In url urls /\ archive_year_month url = None.
Proof.
  induction urls as [|u urls IH]; simpl.
  - split; [discriminate | intros [url [[] _]]].
  - destruct (archive_year_month u) as [[year month]|] eqn:E.
    + destruct (select_archives sy sm urls) as [sel|].
      * split; [discriminate|]. intros [url [[<- | Hin] Hn]]; [congruence|].
        assert (H : Some sel = None) by (apply IH; exists url; auto).
        discriminate H.
      * split; [|reflexivity]. intros _.
        destruct (proj1 IH eq_refl) as [url [Hin Hn]]. exists url. auto.
    + split; [|reflexivity]. intros _. exists u. auto.
Qed.

(** X1: with a cutoff date that parses and whose local midnight has a
    timestamp, an archive index holding one URL whose last two path
    segments do not read as integers makes the call raise: only the index
    has been requested, no archive is downloaded (not even the well-formed
    ones listed before it), and the dashboard has no page to show. *)
Theorem malformed_archive_url_raises (w : World) (user s : string)
    (ymd : Z * Z * Z) (all_archives : list string) (url : string) :
  Strptime.strptime s = Some ymd ->
  start_timestamp_of w ymd <> None ->
  archives_index w = Some all_archives ->
  In url all_archives ->
  archive_year_month url = None ->
  process_all_modes w user s
    = {| fetched := [index_url user]; returned := None |} /\
  snd (dashboard true w user s) = ServerError.
Proof.
  intros Hs Hts Hidx Hin Hurl.
  assert (Hrun : process_all_modes w user s
                 = {| fetched := [index_url user]; returned := None |}).
  { unfold process_all_modes. rewrite Hs. destruct ymd as [[y m] d].
    destruct (start_timestamp_of w (y, m, d)) as [ts|]; [|contradiction].
    rewrite Hidx.
    assert (Hsel : select_archives y m all_archives = None)
      by (apply select_archives_None; exists url; auto).
    rewrite Hsel. reflexivity. }
  split; [exact Hrun|]. unfold dashboard. simpl. rewrite Hrun. reflexivity.
Qed.

(** An index whose second entry names the month in letters. *)
Lemma malformed_archive_url_raises_witness :
  let w := {| fromtimestamp := Samples.utc_fromtimestamp;
              timestamp := Samples.utc_timestamp;
              archives_index := Some [Samples.archive "2025/11";
                                      Samples.archive "2025/dec"];
              monthly := fun _ => Some [Samples.blitz960_win] |} in
  Strptime.strptime Samples.start_date = Some (2025, 11, 1) /\
  start_timestamp_of w (2025, 11, 1) <> None /\
  archive_year_month (Samples.archive "2025/dec") = None /\
  process_all_modes w Samples.user Samples.start_date
    = {| fetched := [index_url Samples.user]; returned := None |}.
Proof.
  intros w.
  assert (Hs : Strptime.strptime Samples.start_date = Some (2025, 11, 1))
    by (vm_compute; reflexivity).
  assert (Ht : start_timestamp_of w (2025, 11, 1) <> None)
    by (vm_compute; discriminate).
  assert (Hu : archive_year_month (Samples.archive "2025/dec") = None)
    by (vm_compute; reflexivity).
  split; [exact Hs|]. split; [exact Ht|]. split; [exact Hu|].
  apply (malformed_archive_url_raises w Samples.user Samples.start_date
           (2025, 11, 1)
           [Samples.archive "2025/11"; Samples.archive "2025/dec"]
           (Samples.archive "2025/dec") Hs Ht eq_refl).
  - right. left. reflexivity.
  - exact Hu.
Defined.

Lemma download_app (w : World) (user : string) (ts : Z) (a b : list string) :
  download w user ts (a ++ b)
    = (download w user ts a ++ download w user ts b)%list.
Proof.
  induction a as [|url a IH]; simpl; [reflexivity|].
  destruct (monthly w url); rewrite IH; [apply app_assoc | reflexivity].
Qed.

(** X2: a monthly archive whose request fails is skipped: the records of
    the months before and after it are returned as if the failed month
    were not listed. *)
Theorem failed_month_skipped (w : World) (user : string) (ts : Z)
    (before after : list string) (url : string) :
  monthly w url = None ->
  download w user ts (before ++ url :: after)
    = (download w user ts before ++ download w user ts after)%list /\
  download w user ts (before ++ url :: after)
    = download w user ts (before ++ after).
Proof.
  intros Hf.
  assert (H1 : download w user ts (before ++ url :: after)
               = (download w user ts before ++ download w user ts after)%list).
  { rewrite download_app. simpl. rewrite Hf. reflexivity. }
  split; [exact H1|]. rewrite H1, download_app. reflexivity.
Qed.

(** November fails, December holds one game. *)
Lemma failed_month_skipped_witness :
  let w := {| fromtimestamp := Samples.utc_fromtimestamp;
              timestamp := Samples.utc_timestamp;
              archives_index := None;
              monthly := fun url =>
                if String.eqb url (Samples.archive "2025/11") then None
                else Some [Samples.blitz960_win] |} in
  monthly w (Samples.archive "2025/11") = None /\
  download w Samples.user 0
    ([] ++ Samples.archive "2025/11" :: [Samples.archive "2025/12"])
    = download w Samples.user 0 ([] ++ [Samples.archive "2025/12"]).
Proof.
  intros w.
  assert (Hf : monthly w (Samples.archive "2025/11") = None) by reflexivity.
  split; [exact Hf|].
  apply (proj2 (failed_month_skipped w Samples.user 0 []
                  [Samples.archive "2025/12"] (Samples.archive "2025/11") Hf)).
Defined.

(** *** The user's side *)







(** *** The selection on a chronological index *)

Lemma selected_later (sy sm : Z) (a b : string) :
  month_not_after a b -> selected sy sm a = true -> selected sy sm b = true.
Proof.
  unfold month_not_after, selected.
  destruct (archive_year_month a) as [[y1 m1]|]; [|contradiction].
  destruct (archive_year_month b) as [[y2 m2]|]; [|contradiction].
  rewrite !on_or_after_spec. lia.
Qed.

(** X4: when the index lists the archives in chronological order, the
    selected archives are a tail of the index: the call skips a number of
    leading months, all before the cutoff month, and downloads every
    archive from there on. *)
Theorem chronological_selection_is_tail (sy sm : Z) (urls : list string) :
  Forall (fun u => archive_year_month u <> None) urls ->
  StronglySorted month_not_after urls ->
  exists k,
    select_archives sy sm urls = Some (skipn k urls) /\
    Forall (fun u => selected sy sm u = false) (firstn k urls) /\
    Forall (fun u => selected sy sm u = true) (skipn k urls).
Proof.
  intros Hparse Hsorted. rewrite (select_archives_filter sy sm urls Hparse).
  clear Hparse. induction Hsorted as [|u urls Hs IH Hu].
  - exists 0%nat. simpl. repeat split; constructor.
  - simpl. destruct (selected sy sm u) eqn:E.
    + assert (Hall : Forall (fun b => selected sy sm b = true) urls).
      { eapply Forall_impl; [|exact Hu]. intros b Hb.
        now apply (selected_later sy sm u b). }
      exists 0%nat. simpl. rewrite filter_all by now apply Forall_forall.
      repeat split; constructor; assumption.
    + destruct IH as [k [Hk [Hf Hl]]]. exists (S k). simpl.
      rewrite Hk. repeat split; [constructor|]; assumption.
Qed.

(** The four sample months with the cutoff 2025-11: one month is skipped. *)
Lemma chronological_selection_is_tail_witness :
  Forall (fun u => archive_year_month u <> None) Samples.four_archives /\
  StronglySorted month_not_after Samples.four_archives /\
  exists k,
    select_archives 2025 11 Samples.four_archives
      = Some (skipn k Samples.four_archives) /\
    Forall (fun u => selected 2025 11 u = false)
           (firstn k Samples.four_archives) /\
    Forall (fun u => selected 2025 11 u = true)
           (skipn k Samples.four_archives).
Proof.
  assert (Hp : Forall (fun u => archive_year_month u <> None)
                      Samples.four_archives)
    by (repeat constructor; vm_compute; discriminate).
  assert (Hs : StronglySorted month_not_after Samples.four_archives)
    by (repeat constructor; vm_compute; intuition discriminate).
  split; [exact Hp|]. split; [exact Hs|].
  apply (chronological_selection_is_tail 2025 11 Samples.four_archives Hp Hs).
Defined.

(** *** Groups and totals *)

Section GroupFacts.
Context {A K : Type} (eqb : K -> K -> bool) (key : A -> K).
Hypothesis eqb_spec : forall a b, eqb a b = true <-> a = b.

Lemma sum_one_key (ks : list K) (k : K) :
  NoDup ks -> In k ks ->
  Pandas.sum (map (fun k' => if eqb k k' then 1 else 0) ks) = 1.
Proof.
  induction 1 as [|k0 ks Hnin Hnd IH]; simpl; [contradiction|].
  intros Hin. destruct (eqb k k0) eqn:E.
  - apply eqb_spec in E. subst k0.
    assert (Hz : Pandas.sum (map (fun k' => if eqb k k' then 1 else 0) ks) = 0).
    { clear IH Hnd Hin. induction ks as [|k1 ks IH]; simpl; [reflexivity|].
      destruct (eqb k k1) eqn:E1.
      - apply eqb_spec in E1. subst. exfalso. apply Hnin. now left.
      - rewrite IH; [reflexivity|]. intros H. apply Hnin. now right. }
    unfold Pandas.sum in *. lia.
  - destruct Hin as [-> | Hin].
    + assert (Ht : eqb k k = true) by now apply eqb_spec. congruence.
    + specialize (IH Hin). unfold Pandas.sum in *. lia.
Qed.

(** The sizes of the groups of a frame add up to the size of the frame. *)
Lemma group_sizes_total (ks : list K) (l : list A) :
  NoDup ks -> (forall a, In a l -> In (key a) ks) ->
  Pandas.sum (map (fun k => Pandas.len (filter (fun a => eqb (key a) k) l)) ks)
    = Pandas.len l.
Proof.
  intros Hnd. induction l as [|x l IH]; intros Hin.
  - clear. simpl. unfold Pandas.len, Pandas.sum. simpl.
    induction ks as [|k ks IHk]; simpl; [reflexivity | exact IHk].
  - rewrite (map_ext _ (fun k => (if eqb (key x) k then 1 else 0)
                                 + Pandas.len (filter (fun a => eqb (key a) k) l))).
    + rewrite sum_map_add, IH by (intros a Ha; apply Hin; now right).
      rewrite sum_one_key; [|exact Hnd | apply Hin; now left].
      unfold Pandas.len. simpl List.length. lia.
    + intros k. simpl. destruct (eqb (key x) k); unfold Pandas.len;
        simpl List.length; lia.
Qed.

End GroupFacts.




(** *** The tables on the frame of a run *)

Lemma mode_name_in_mode_list (tc : string) (is_960 : bool) :
  In tc TIME_CLASSES -> In (mode_name tc is_960) (mode_list is_960).
Proof.
  unfold TIME_CLASSES. simpl. intros H.
  repeat (destruct H as [<- | H]; [destruct is_960; vm_compute; tauto|]).
  contradiction.
Qed.

(** The mode name of a record of a run is a column of the tables of its
    variant. *)
Lemma run_record_mode (w : World) (user s : string) (df : DataFrame)
    (r : MatchRecord) :
  returned (process_all_modes w user s) = Some df -> In r df ->
  In (Mode r) (mode_list (Is960 r)).
Proof.
  unfold process_all_modes.
  destruct (Strptime.strptime s) as [[[y m] d]|]; simpl;
    [|intros [= <-]; contradiction].
  destruct (start_timestamp_of w (y, m, d)) as [ts|]; simpl;
    [|intros [= <-]; contradiction].
  destruct (archives_index w) as [all_archives|]; simpl;
    [|intros [= <-]; contradiction].
  destruct (select_archives y m all_archives) as [rel|]; simpl; [|discriminate].
  intros [= <-] Hin. apply download_In in Hin.
  destruct Hin as [url [games [g [_ [_ [_ Hn]]]]]].
  apply normalize_Some in Hn. destruct Hn as [_ [tc [_ [Htc ->]]]]. simpl.
  now apply mode_name_in_mode_list.
Qed.

Lemma mode_list_NoDup (is_960 : bool) : NoDup (mode_list is_960).
Proof.
  destruct is_960; simpl;
    repeat (constructor;
            [simpl; intros H;
             repeat (destruct H as [H | H]; [discriminate|]); exact H|]);
    constructor.
Qed.

Lemma weekly_mode_total (df : DataFrame) (is_960 : bool) (mode : string) :
  In mode (mode_list is_960) ->
  Pandas.sum (map (row_games mode) (weekly_rows df is_960))
    = Pandas.len (filter_mode mode (filter_variant df is_960)).
Proof.
  intros Hmode. rewrite weekly_rows_stats.
  set (fdf := filter_variant df is_960).
  unfold weekly_stats. rewrite map_map.
  rewrite (map_ext _ (fun wk => Pandas.len
                        (filter (fun r => Week_of r =? wk)
                                (filter_mode mode fdf)))).
  - apply groups_partition; [apply sorted_reverse_unique_NoDup|].
    intros r Hr. apply sorted_reverse_unique_In. apply in_map.
    unfold filter_mode in Hr. apply filter_In in Hr. tauto.
  - intros wk. unfold row_games. simpl.
    rewrite lookup_cell_map by exact Hmode.
    rewrite (proj1 (weekly_cell_games _ _)).
    fold (in_week wk fdf). now rewrite filter_mode_in_week.
Qed.

Lemma box_traces_sizes (filtered_df : DataFrame) (is_960 : bool)
    (modes : list string) :
  Pandas.sum (map (fun b => Pandas.len (y b))
                  (box_traces filtered_df is_960 modes))
    = Pandas.sum (map (fun m => Pandas.len (filter_mode m filtered_df)) modes).
Proof.
  induction modes as [|m modes IH]; simpl; [reflexivity|].
  destruct (0 <? Pandas.len (filter_mode m filtered_df)) eqn:E; simpl.
  - unfold Pandas.sum in *. rewrite IH. unfold Pandas.len.
    now rewrite length_map.
  - apply Z.ltb_ge in E. pose proof (len_nonneg (filter_mode m filtered_df)).
    unfold Pandas.sum in *. rewrite IH. lia.
Qed.

(** X6: on the frame returned by a run, no record falls outside the
    tables: for each variant value, the game counts of the weekly table
    summed over its rows and its four mode columns, and the sizes of the
    rating samples of the box plot, both equal the number of records of
    that variant. *)
Theorem run_frame_fully_tabulated (w : World) (user s : string)
    (df : DataFrame) (is_960 : bool) :
  returned (process_all_modes w user s) = Some df ->
  Pandas.sum (map (fun mode =>
                     Pandas.sum (map (row_games mode) (weekly_rows df is_960)))
                  (mode_list is_960))
    = Pandas.len (filter_variant df is_960) /\
  Pandas.sum (map (fun b => Pandas.len (y b)) (boxes df is_960))
    = Pandas.len (filter_variant df is_960).
Proof.
  intros Hrun.
  assert (Hmodes : forall r, In r (filter_variant df is_960) ->
                     In (Mode r) (mode_list is_960)).
  { intros r Hr. unfold filter_variant in Hr. apply filter_In in Hr.
    destruct Hr as [Hr Hv]. apply Bool.eqb_prop in Hv. rewrite <- Hv.
    eapply run_record_mode; eassumption. }
  assert (Htotal : Pandas.sum
                     (map (fun m => Pandas.len
                                      (filter_mode m (filter_variant df is_960)))
                          (mode_list is_960))
                   = Pandas.len (filter_variant df is_960)).
  { unfold filter_mode.
    apply (group_sizes_total String.eqb Mode String.eqb_eq);
      [apply mode_list_NoDup | exact Hmodes]. }
  split.
  - rewrite (map_ext_in _ (fun m => Pandas.len
                             (filter_mode m (filter_variant df is_960))));
      [exact Htotal|].
    intros mode Hmode. now apply weekly_mode_total.
  - rewrite boxes_traces, box_traces_sizes. rewrite <- Htotal.
    destruct is_960; simpl; unfold Pandas.sum; simpl; lia.
Qed.

(** The run over the two sample games of November 2025, one of each
    variant. *)
Lemma run_frame_fully_tabulated_witness :
  let w := Samples.november [Samples.blitz960_win; Samples.bullet_loss_no_rules] in
  let df := [Samples.record Samples.noon_nov_5 1510 "Blitz960" Win true;
             Samples.record (Samples.noon_nov_5 + 600) 1391 "Bullet" Loss false] in
  returned (process_all_modes w Samples.user Samples.start_date) = Some df /\
  Pandas.sum (map (fun mode =>
                     Pandas.sum (map (row_games mode) (weekly_rows df true)))
                  (mode_list true))
    = Pandas.len (filter_variant df true).
Proof.
  intros w df.
  assert (Hrun : returned (process_all_modes w Samples.user Samples.start_date)
                 = Some df) by (vm_compute; reflexivity).
  split; [exact Hrun|].
  apply (proj1 (run_frame_fully_tabulated w Samples.user Samples.start_date
                  df true Hrun)).
Defined.

(** *** Games per day and mode *)










(** *** Reported averages and percentages *)

Lemma sum_between (l : list Z) (lo hi : Z) :
  (forall x, In x l -> lo <= x <= hi) ->
  Pandas.len l * lo <= Pandas.sum l <= Pandas.len l * hi.
Proof.
  unfold Pandas.len, Pandas.sum.
  induction l as [|x l IH]; intros H; [simpl; lia|].
  specialize (IH (fun z Hz => H z (or_intror Hz))).
  pose proof (H x (or_introl eq_refl)) as Hx.
  simpl fold_right. simpl List.length. rewrite Nat2Z.inj_succ. lia.
Qed.

Lemma round_half_even_between (num den lo hi : Z) :
  0 < den -> den * lo <= num <= den * hi ->
  lo <= Pandas.round_half_even num den <= hi.
Proof.
  intros Hd Hn. unfold Pandas.round_half_even.
  pose proof (Z.div_mod num den ltac:(lia)) as Hdm.
  pose proof (Z.mod_pos_bound num den Hd) as Hb.
  assert (Hq : lo <= num / den <= hi) by (split; nia).
  assert (Hq1 : 0 < num mod den -> num / den + 1 <= hi) by (intros; nia).
  destruct (2 * (num mod den) <? den) eqn:E1; [exact Hq|].
  apply Z.ltb_ge in E1.
  destruct (den <? 2 * (num mod den)) eqn:E2; [lia|].
  destruct (Z.even (num / den)); lia.
Qed.

(** The rounded mean of some ratings lies between their least and their
    greatest. *)
Lemma mean_rounded_between (l : list Z) (lo hi : Z) :
  l <> [] -> (forall x, In x l -> lo <= x <= hi) ->
  lo <= Pandas.mean_rounded l <= hi.
Proof.
  intros Hne H. unfold Pandas.mean_rounded.
  assert (Hlen : 0 < Pandas.len l)
    by (destruct l; [contradiction | unfold Pandas.len; simpl List.length; lia]).
  apply round_half_even_between; [exact Hlen|].
  pose proof (sum_between l lo hi H). lia.
Qed.

Lemma percentage_between (wins total : Z) :
  0 < total -> 0 <= wins <= total ->
  (0 <= Pandas.percentage wins total)%Q /\
  (Pandas.percentage wins total <= 100)%Q.
Proof.
  intros Ht Hw. unfold Pandas.percentage.
  destruct total as [|t|t]; try lia.
  unfold Qle, Qdiv, Qmult, Qinv, inject_Z. simpl. split; nia.
Qed.

Lemma count_le_len {A : Type} (p : A -> bool) (l : list A) :
  0 <= Pandas.count p l <= Pandas.len l.
Proof.
  split; [apply count_nonneg|].
  pose proof (count_split p l).
  pose proof (count_nonneg (fun a => negb (p a)) l). lia.
Qed.

Lemma lookup_cell_map_Some (f : string -> Cell) (modes : list string)
    (mode : string) (c : Cell) :
  lookup_cell mode (map (fun m => (m, f m)) modes) = Some c -> c = f mode.
Proof.
  induction modes as [|m modes IH]; simpl; [discriminate|].
  destruct (String.eqb m mode) eqn:E; [|exact IH].
  apply String.eqb_eq in E. subst. now intros [= <-].
Qed.

(** X8: a cell of the weekly table that is not the dash reports at least
    one game, a win percentage between 0 and 100, and an average rating
    that lies between any two bounds holding for the ratings of the
    records of that week and mode. *)
Theorem weekly_cell_within_range (df : DataFrame) (is_960 : bool)
    (row : WeeklyRow) (mode : string) (n : Z) (p : Q) (a : Z) :
  In row (weekly_rows df is_960) ->
  lookup_cell mode (cells row) = Some (Stats n p a) ->
  1 <= n /\ (0 <= p)%Q /\ (p <= 100)%Q /\
  forall lo hi,
    (forall r, In r (filter_variant df is_960) -> Mode r = mode ->
               Week_of r = week row -> lo <= Rating r <= hi) ->
    lo <= a <= hi.
Proof.
  rewrite weekly_rows_stats. set (fdf := filter_variant df is_960).
  unfold weekly_stats. intros Hrow Hcell.
  apply in_map_iff in Hrow. destruct Hrow as [wk [<- _]]. simpl in *.
  apply lookup_cell_map_Some in Hcell. fold (in_week wk fdf) in Hcell.
  unfold weekly_cell in Hcell.
  set (mode_data := filter_mode mode (in_week wk fdf)) in *.
  destruct (0 <? Pandas.len mode_data) eqn:E; [|discriminate].
  apply Z.ltb_lt in E. injection Hcell as -> -> ->.
  destruct (percentage_between (Pandas.count is_win mode_data)
              (Pandas.len mode_data) E (count_le_len _ _)) as [Hp0 Hp1].
  split; [lia|]. split; [exact Hp0|]. split; [exact Hp1|].
  intros lo hi Hb. apply mean_rounded_between.
  - destruct mode_data; [unfold Pandas.len in E; simpl in E; lia | discriminate].
  - intros x Hx. apply in_map_iff in Hx. destruct Hx as [r [<- Hr]].
    unfold mode_data, filter_mode in Hr. apply filter_In in Hr.
    destruct Hr as [Hr Hm]. apply String.eqb_eq in Hm.
    apply in_week_In in Hr. destruct Hr as [Hr Hw]. now apply Hb.
Qed.

(** The Blitz cell of the week of the three sample games. *)
Lemma weekly_cell_within_range_witness :
  let row := {| week := 20395; Week_label := "2025-11-03";
                cells := [("Blitz", Stats 2 (200 # 2) 1504);
                          ("Bullet", Stats 1 0 1391);
                          ("Rapid", NoData); ("Daily", NoData)] |} in
  In row (weekly_rows Samples.three_games false) /\
  lookup_cell "Blitz" (cells row) = Some (Stats 2 (200 # 2) 1504) /\
  1 <= 2 /\ (0 <= 200 # 2)%Q /\ (200 # 2 <= 100)%Q.
Proof.
  intros row.
  assert (Hrow : In row (weekly_rows Samples.three_games false))
    by (left; vm_compute; reflexivity).
  assert (Hc : lookup_cell "Blitz" (cells row) = Some (Stats 2 (200 # 2) 1504))
    by reflexivity.
  split; [exact Hrow|]. split; [exact Hc|].
  destruct (weekly_cell_within_range Samples.three_games false row "Blitz"
              2 (200 # 2) 1504 Hrow Hc) as [H1 [H2 [H3 _]]].
  auto.
Defined.

Lemma firstn_incl {A : Type} (n : nat) (l : list A) (x : A) :
  In x (firstn n l) -> In x l.
Proof.
  revert l. induction n as [|n IH]; intros [|a l]; simpl; try contradiction.
  intros [-> | H]; [now left | right; now apply IH].
Qed.

(** X9: for a positive interval, every milestone of the interval table
    reports a win percentage between 0 and 100 and an average rating that
    lies between any two bounds holding for the ratings of the
    variant's records of the milestone's mode. *)
Theorem milestone_within_range (N : Z) (df : DataFrame) (is_960 : bool)
    (s : IntervalStat) :
  0 < N ->
  In s (emitted_milestones N df is_960) ->
  (0 <= Win_pct s)%Q /\ (Win_pct s <= 100)%Q /\
  N <= Games_Played s
    <= Pandas.len (filter_mode (stat_Mode s) (filter_variant df is_960)) /\
  forall lo hi,
    (forall r, In r (filter_variant df is_960) -> Mode r = stat_Mode s ->
               lo <= Rating r <= hi) ->
    lo <= Average_Rating s <= hi.
Proof.
  intros HN Hs.
  remember (stat_Mode s) as mode eqn:Hmode.
  set (fdf := filter_variant df is_960).
  set (recs := by_timestamp mode fdf).
  assert (Hperm : Permutation recs (filter_mode mode fdf))
    by apply by_timestamp_sorted.
  assert (Hn : Pandas.len recs = Pandas.len (filter_mode mode fdf))
    by (unfold Pandas.len; f_equal; now apply Permutation_length).
  assert (Hin : In s (map (interval_stat mode recs)
                          (checkpoints N (Pandas.len recs)))).
  { unfold recs, fdf.
    rewrite <- (filter_mode_sorted mode (filter_variant df is_960)).
    rewrite <- milestones_of_interval_stats by exact HN.
    rewrite <- (proj2 (emitted_milestones_stats N df is_960 HN)).
    unfold milestones_of. apply filter_In. split; [exact Hs|].
    rewrite Hmode. apply String.eqb_refl. }
  apply in_map_iff in Hin. destruct Hin as [c [Heq Hc]].
  clear Hs Hmode. subst s.
  apply checkpoints_In in Hc; [|exact HN]. destruct Hc as [k [Hk [-> Hle]]].
  assert (Hrange : 1 <= k * N <= Pandas.len recs) by nia.
  set (first := firstn (Z.to_nat (k * N)) recs).
  assert (Hlen : Pandas.len first = k * N) by (apply firstn_len; lia).
  simpl. fold first.
  destruct (percentage_between (Pandas.count is_win first) (k * N)
              ltac:(lia) ltac:(rewrite <- Hlen; apply count_le_len))
    as [Hp0 Hp1].
  split; [exact Hp0|]. split; [exact Hp1|]. split; [rewrite <- Hn; nia|].
  intros lo hi Hb. apply mean_rounded_between.
  - destruct first; [unfold Pandas.len in Hlen; simpl in Hlen; lia | discriminate].
  - intros x Hx. apply in_map_iff in Hx. destruct Hx as [r [<- Hr]].
    apply firstn_incl in Hr. apply (Permutation_in _ Hperm) in Hr.
    unfold filter_mode in Hr. apply filter_In in Hr. destruct Hr as [Hr Hm].
    apply String.eqb_eq in Hm. now apply Hb.
Qed.

(** The milestone at 10 games of the 25 sample blitz records. *)
Lemma milestone_within_range_witness :
  let s := {| stat_Mode := "Blitz"; Games_Played := 10;
              Average_Rating := 1504; Win_pct := 400 # 10 |} in
  0 < 10 /\
  In s (emitted_milestones 10 (Samples.blitz_records 25) false) /\
  (0 <= Win_pct s)%Q /\ (Win_pct s <= 100)%Q.
Proof.
  intros s.
  assert (H10 : 0 < 10) by lia.
  assert (Hs : In s (emitted_milestones 10 (Samples.blitz_records 25) false))
    by (left; vm_compute; reflexivity).
  split; [exact H10|]. split; [exact Hs|].
  destruct (milestone_within_range 10 (Samples.blitz_records 25) false s H10 Hs)
    as [H1 [H2 _]].
  auto.
Defined.

(** *** The three answers of [create_interval_table] *)

Lemma filter_mode_sort_len (mode : string) (df : DataFrame) :
  Pandas.len (filter_mode mode (Pandas.sort Mode_Date_leb df))
    = Pandas.len (filter_mode mode df).
Proof.
  rewrite filter_mode_sorted. unfold Pandas.len. f_equal.
  apply Permutation_length, by_timestamp_sorted.
Qed.




(** *** The shape of the interval table *)

Lemma pivot_column_length (interval_df : list IntervalStat)
    (games_col : list Z) (mode : string) :
  List.length (pivot_column interval_df games_col mode)
    = List.length games_col.
Proof.
  unfold pivot_column.
  destruct (filter _ interval_df); [apply repeat_length | apply length_map].
Qed.

(** A milestone of a call stands at a multiple of the interval within the
    game count of its mode. *)
Lemma emitted_milestone_multiple (N : Z) (df : DataFrame) (is_960 : bool)
    (s : IntervalStat) :
  0 < N -> In s (emitted_milestones N df is_960) ->
  exists k, 1 <= k /\ Games_Played s = k * N /\
    k * N <= Pandas.len (filter_mode (stat_Mode s) (filter_variant df is_960)).
Proof.
  intros HN Hs.
  remember (stat_Mode s) as mode eqn:Hmode.
  assert (Hin : In s (milestones_of mode (emitted_milestones N df is_960)))
    by (unfold milestones_of; apply filter_In; split;
        [exact Hs | rewrite Hmode; apply String.eqb_refl]).
  rewrite (proj2 (emitted_milestones_stats N df is_960 HN)) in Hin.
  rewrite milestones_of_interval_stats in Hin by exact HN.
  rewrite filter_mode_sort_len in Hin.
  apply in_map_iff in Hin. destruct Hin as [c [Heq Hc]].
  apply checkpoints_In in Hc; [|exact HN]. destruct Hc as [k [Hk [-> Hle]]].
  exists k. subst s. simpl. auto.
Qed.

(** The first milestone of a mode that has a milestone. *)
Lemma emitted_first_milestone (N : Z) (df : DataFrame) (is_960 : bool)
    (mode : string) :
  0 < N ->
  N <= Pandas.len (filter_mode mode (filter_variant df is_960)) ->
  exists s, In s (emitted_milestones N df is_960) /\ Games_Played s = N.
Proof.
  intros HN Hle.
  set (sdf := Pandas.sort Mode_Date_leb (filter_variant df is_960)).
  exists (interval_stat mode (filter_mode mode sdf) N). split; [|reflexivity].
  assert (Hin : In (interval_stat mode (filter_mode mode sdf) N)
                   (milestones_of mode (emitted_milestones N df is_960))).
  { rewrite (proj2 (emitted_milestones_stats N df is_960 HN)).
    rewrite milestones_of_interval_stats by exact HN. fold sdf.
    apply in_map. apply checkpoints_In; [exact HN|].
    exists 1. unfold sdf. rewrite filter_mode_sort_len. lia. }
  unfold milestones_of in Hin. apply filter_In in Hin. tauto.
Qed.

(** X11: for a positive interval, a returned interval table is
    rectangular: it has one column for each of the four modes of the
    variant, in the order of the mode list, each as long as the games
    column; the games column lists, in ascending order and without
    repetition, the game counts at which some mode has a milestone; these
    are multiples of the interval and the first of them is the interval
    itself. *)
Theorem interval_table_shape (N : Z) (df : DataFrame) (is_960 : bool)
    (t : IntervalTable) :
  0 < N ->
  create_interval_table N df is_960 = Some (Figure t) ->
  map fst (pivot t) = mode_list is_960 /\
  Forall (fun col => List.length (snd col) = List.length (games_played t))
         (pivot t) /\
  StronglySorted Z.lt (games_played t) /\
  (forall c, In c (games_played t) <->
             exists s, In s (milestones t) /\ Games_Played s = c) /\
  (forall c, In c (games_played t) -> exists k, 1 <= k /\ c = k * N) /\
  hd_error (games_played t) = Some N.
Proof.
  intros HN Ht.
  destruct (create_interval_table_Figure N df is_960 t Ht) as [Hms [Hg Hp]].
  assert (Hmem : forall c, In c (games_played t) <->
                   exists s, In s (milestones t) /\ Games_Played s = c).
  { intros c. rewrite Hg, sorted_unique_In, in_map_iff.
    split; intros [s [H1 H2]]; exists s; auto. }
  assert (Hmult : forall c, In c (games_played t) -> exists k, 1 <= k /\ c = k * N).
  { intros c Hc. apply Hmem in Hc. destruct Hc as [s [Hs <-]].
    rewrite Hms in Hs.
    destruct (emitted_milestone_multiple N df is_960 s HN Hs)
      as [k [Hk [Hgp _]]].
    exists k. auto. }
  assert (Hsorted : StronglySorted Z.lt (games_played t))
    by (rewrite Hg; apply sorted_unique_ascending).
  split; [rewrite Hp, map_map; simpl; apply map_id|].
  split; [rewrite Hp; apply Forall_forall; intros col Hcol;
          apply in_map_iff in Hcol; destruct Hcol as [m [<- _]]; simpl;
          apply pivot_column_length|].
  split; [exact Hsorted|]. split; [exact Hmem|]. split; [exact Hmult|].
  assert (HinN : In N (games_played t)).
  { assert (Hne : milestones t <> []).
    { unfold create_interval_table in Ht.
      destruct (filter_variant df is_960); [discriminate|].
      destruct (filter (at_interval N) _); [discriminate|].
      destruct (interval_stats N _) eqn:E; [discriminate|].
      injection Ht as <-. simpl. discriminate. }
    assert (Hex : exists s0, In s0 (milestones t))
      by (destruct (milestones t) as [|s0 rest];
          [contradiction | exists s0; now left]).
    destruct Hex as [s0 Hs0]. rewrite Hms in Hs0.
    destruct (emitted_milestone_multiple N df is_960 s0 HN Hs0)
      as [k [Hk [_ Hle]]].
    destruct (emitted_first_milestone N df is_960 (stat_Mode s0) HN
                ltac:(nia)) as [s [Hs HsN]].
    apply Hmem. exists s. rewrite Hms. auto. }
  destruct (games_played t) as [|h rest]; [contradiction|]. simpl.
  destruct (Hmult h (or_introl eq_refl)) as [k [Hk ->]].
  inversion Hsorted as [|? ? _ Hh]; subst.
  destruct HinN as [-> | HinN]; [reflexivity|].
  rewrite Forall_forall in Hh. specialize (Hh N HinN). f_equal. nia.
Qed.

(** The table of the 25 sample blitz records with the interval 10. *)
Lemma interval_table_shape_witness :
  exists t,
    0 < 10 /\
    create_interval_table 10 (Samples.blitz_records 25) false = Some (Figure t) /\
    map fst (pivot t) = mode_list false /\
    games_played t = [10; 20] /\
    hd_error (games_played t) = Some 10.
Proof.
  assert (H10 : 0 < 10) by lia.
  destruct (create_interval_table 10 (Samples.blitz_records 25) false)
    as [[text | t]|] eqn:E; try (vm_compute in E; discriminate E).
  exists t.
  destruct (interval_table_shape 10 (Samples.blitz_records 25) false t H10 E)
    as [H1 [_ [_ [_ [_ H6]]]]].
  split; [exact H10|]. split; [reflexivity|]. split; [exact H1|].
  split; [|exact H6].
  vm_compute in E. injection E as <-. reflexivity.
Defined.

(** *** The current ratings of the dashboard *)

Lemma dict_lookup_set {V : Type} (acc : list (string * V)) (k k' : string)
    (v : V) :
  dict_lookup (dict_set acc k v) k'
    = if String.eqb k k' then Some v else dict_lookup acc k'.
Proof.
  induction acc as [|[k0 v0] acc IH]; simpl.
  - reflexivity.
  - destruct (String.eqb k0 k) eqn:E; simpl.
    + apply String.eqb_eq in E. subst k0.
      destruct (String.eqb k k'); reflexivity.
    + rewrite IH. destruct (String.eqb k0 k') eqn:E0; [|reflexivity].
      apply String.eqb_eq in E0. subst k0. now rewrite String.eqb_sym, E.
Qed.

Lemma dict_set_keys {V : Type} (acc : list (string * V)) (k : string) (v : V)
    (P : string -> Prop) :
  P k -> Forall (fun kv => P (fst kv)) acc ->
  Forall (fun kv => P (fst kv)) (dict_set acc k v).
Proof.
  intros Hk. induction 1 as [|[k0 v0] acc H0 Hacc IH]; simpl.
  - repeat constructor. exact Hk.
  - destruct (String.eqb k0 k); constructor; simpl in *; assumption.
Qed.

Lemma fold_set_found_other (L : list (string * option Z))
    (acc : list (string * Z)) (k : string) :
  ~ In k (map fst L) ->
  dict_lookup (fold_left set_found L acc) k = dict_lookup acc k.
Proof.
  revert acc. induction L as [|[k0 o0] L IH]; intros acc Hk; simpl;
    [reflexivity|].
  rewrite IH by (intros H; apply Hk; now right).
  unfold set_found. simpl. destruct o0 as [r|]; [|reflexivity].
  rewrite dict_lookup_set. destruct (String.eqb k0 k) eqn:E; [|reflexivity].
  apply String.eqb_eq in E. subst. exfalso. apply Hk. now left.
Qed.

Lemma fold_set_found_lookup (L : list (string * option Z))
    (acc : list (string * Z)) (k : string) (o : option Z) :
  NoDup (map fst L) -> In (k, o) L -> dict_lookup acc k = None ->
  dict_lookup (fold_left set_found L acc) k = o.
Proof.
  revert acc. induction L as [|[k0 o0] L IH]; intros acc Hnd Hin Hacc;
    [contradiction|].
  simpl in Hnd. inversion Hnd as [|? ? Hnin Hnd']; subst. simpl.
  destruct Hin as [[= -> ->] | Hin].
  - rewrite fold_set_found_other by exact Hnin.
    unfold set_found. simpl. destruct o as [r|]; [|exact Hacc].
    now rewrite dict_lookup_set, String.eqb_refl.
  - apply IH; [exact Hnd' | exact Hin |].
    unfold set_found. simpl. destruct o0 as [r|]; [|exact Hacc].
    rewrite dict_lookup_set. destruct (String.eqb k0 k) eqn:E; [|exact Hacc].
    apply String.eqb_eq in E. subst. exfalso. apply Hnin.
    apply (in_map fst) in Hin. exact Hin.
Qed.

Lemma fold_set_found_keys (P : string -> Prop) (L : list (string * option Z))
    (acc : list (string * Z)) :
  Forall (fun kv => P (fst kv)) acc ->
  (forall kv, In kv L -> P (fst kv)) ->
  Forall (fun kv => P (fst kv)) (fold_left set_found L acc).
Proof.
  revert acc. induction L as [|[k0 o0] L IH]; intros acc Hacc HL; simpl;
    [exact Hacc|].
  apply IH; [|intros kv Hkv; apply HL; now right].
  unfold set_found. simpl. destruct o0 as [r|]; [|exact Hacc].
  apply dict_set_keys; [|exact Hacc]. apply (HL (k0, Some r)). now left.
Qed.

(** The two loops as one pass over the eight mode names. *)
Lemma current_ratings_fold (d : list (string * Z)) :
  current_ratings (Some d)
    = fold_left set_found
        [("Rapid", dict_lookup d "chess_rapid");
         ("Blitz", dict_lookup d "chess_blitz");
         ("Bullet", dict_lookup d "chess_bullet");
         ("Daily", dict_lookup d "chess_daily");
         ("Daily960", dict_lookup d "chess960_daily");
         ("Rapid960", dict_lookup d "chess960_rapid");
         ("Blitz960", dict_lookup d "chess960_blitz");
         ("Bullet960", dict_lookup d "chess960_bullet")]
        [].
Proof.
  unfold current_ratings, STANDARD_STATS, CHESS960_STATS, set_found.
  cbn [fold_left fst snd].
  repeat match goal with
         | |- context [PyStr.capitalize ?x] =>
             let v := eval vm_compute in (PyStr.capitalize x) in
             change (PyStr.capitalize x) with v
         end.
  cbn [append]. reflexivity.
Qed.

(** X12: the current ratings are keyed by the mode names that
    [process_all_modes] gives its records: for each recognized time class
    and variant value, the rating found under the mode name is the one the
    stats answer holds under [chess_<class>], or [chess960_<class>] for
    the variant, and is missing when the stats answer has no such key;
    no key other than the eight mode names is ever set. *)
Theorem current_ratings_by_mode_name (d : list (string * Z)) (tc : string)
    (is_960 : bool) :
  In tc TIME_CLASSES ->
  dict_lookup (current_ratings (Some d)) (mode_name tc is_960)
    = dict_lookup d ((if is_960 then "chess960_" else "chess_") ++ tc)%string /\
  Forall (fun kv => In (fst kv) (mode_list false ++ mode_list true)%list)
         (current_ratings (Some d)).
Proof.
  intros Htc. rewrite current_ratings_fold. split.
  - apply fold_set_found_lookup; [| |reflexivity].
    + simpl. repeat (constructor;
        [simpl; intros H;
         repeat (destruct H as [H | H]; [discriminate|]); exact H|]).
      constructor.
    + unfold TIME_CLASSES in Htc. simpl in Htc.
      destruct Htc as [<- | [<- | [<- | [<- | []]]]]; destruct is_960;
        simpl; auto 10.
  - apply (fold_set_found_keys
             (fun k => In k (mode_list false ++ mode_list true)%list));
      [constructor|].
    intros kv Hkv. simpl in Hkv.
    repeat (destruct Hkv as [<- | Hkv]; [simpl; auto 10|]). contradiction.
Qed.

(** A stats answer with a blitz and a Chess960 rapid rating. *)
Lemma current_ratings_by_mode_name_witness :
  let d := [("chess_blitz", 1500); ("chess960_rapid", 1300); ("tactics", 9)] in
  In "rapid" TIME_CLASSES /\
  dict_lookup (current_ratings (Some d)) (mode_name "rapid" true) = Some 1300 /\
  dict_lookup (current_ratings (Some d)) (mode_name "rapid" false) = None.
Proof.
  intros d.
  assert (H : In "rapid" TIME_CLASSES) by (left; reflexivity).
  split; [exact H|]. split.
  - rewrite (proj1 (current_ratings_by_mode_name d "rapid" true H)). reflexivity.
  - rewrite (proj1 (current_ratings_by_mode_name d "rapid" false H)). reflexivity.
Defined.
